(** * Check-run plugin of kubebuilder-release-tools: embedding and properties

    A shallow embedding of [verify/plugin.go] and [verify/type.go].

    - Go pointers are [option]s; the nil-safe getters of go-github
      ([GetStatus], [GetID], ...) return the zero value on [None].
    - Go errors are values of the inductive [error]; a nil error is
      [None : option error].
    - The remote Checks service is a state ([World]) holding the stored
      check-runs, a script of failures for the calls to come and the trace
      of the calls made so far.  Plugin methods are computations in the
      monad [M], which threads the world and can panic (nil dereference,
      index out of range).
    - Diagnostics written through the plugin's embedded logger ([debugf])
      neither read nor change any value studied here and are left out. *)

From Stdlib Require Import String Ascii List ZArith Bool Lia.
From Stdlib Require Import DecimalString.
Import ListNotations.

Local Open Scope string_scope.
Local Open Scope Z_scope.

(* ====================================================================== *)
(** * Go errors *)
(* ====================================================================== *)

(** The dynamic types of the error values that can reach the plugin.
    - [errorString]: [errors.New], and [fmt.Errorf] without a [%w] verb;
    - [wrapError]: [fmt.Errorf] with a [%w] verb ([Unwrap] gives the operand);
    - [prTitleTypeError]: the struct of type.go:27, whose method set is
      [Error] and [Details];
    - [pluginError], [pluginWrapError]: any other error a verification
      function may return: [Error()] is [msg]; it has a [Help() string]
      method exactly when [help] is [Some]; the second form also has an
      [Unwrap() error] method, which returns [cause]. *)
Inductive error : Type :=
| errorString (s : string)
| wrapError (msg : string) (err : error)
| prTitleTypeError (title : string)
| pluginError (msg : string) (help : option string)
| pluginWrapError (msg : string) (help : option string) (cause : error).

(** [err.Error()]. type.go:31 for [prTitleTypeError]. *)
Definition Error (e : error) : string :=
  match e with
  | errorString s => s
  | wrapError msg _ => msg
  | prTitleTypeError _ => "no matching PR type indicator found in title"
  | pluginError msg _ | pluginWrapError msg _ _ => msg
  end.

(** [errors.Unwrap(err)]. *)
Definition Unwrap (e : error) : option error :=
  match e with
  | wrapError _ inner => Some inner
  | pluginWrapError _ _ cause => Some cause
  | errorString _ | prTitleTypeError _ | pluginError _ _ => None
  end.

(** plugin.go:29. An interface value of type [ErrorWithHelp]: the error it
    holds together with what its [Help] method returns. *)
Record ErrorWithHelp : Type := mkErrorWithHelp {
  ewh_error : error;
  Help : string
}.

(** The type assertion [err.(ErrorWithHelp)]: it succeeds exactly for the
    dynamic types that have both [Error() string] and [Help() string]. *)
Definition assertErrorWithHelp (e : error) : option ErrorWithHelp :=
  match e with
  | pluginError _ (Some h) | pluginWrapError _ (Some h) _ =>
      Some (mkErrorWithHelp e h)
  | _ => None
  end.

(** [errors.As(err, &helpErr)] with [helpErr] of type [ErrorWithHelp]: walk
    the [Unwrap] chain from [err] and stop at the first error that can be
    assigned to the target. [None] is Go's [false]. (None of the error types
    above has an [As] method of its own.) *)
Fixpoint errors_As (e : error) : option ErrorWithHelp :=
  match e with
  | errorString _ => None
  | wrapError _ inner => errors_As inner
  | prTitleTypeError _ => None
  | pluginError _ (Some h) | pluginWrapError _ (Some h) _ =>
      Some (mkErrorWithHelp e h)
  | pluginError _ None => None
  | pluginWrapError _ None inner => errors_As inner
  end.

(** [fmt.Errorf(prefix + "%v", x)]: no [%w], hence a plain string error. *)
Definition Errorf_v (prefix : string) (x : string) : error :=
  errorString (prefix ++ x).

(** [fmt.Errorf(prefix + "%w", err)]. *)
Definition Errorf_w (prefix : string) (err : error) : error :=
  wrapError (prefix ++ Error err) err.

(** [%d] of an integer. *)
Definition fmt_d (n : Z) : string := NilZero.string_of_int (Z.to_int n).

(* ====================================================================== *)
(** * go-github data *)
(* ====================================================================== *)

Definition Timestamp : Type := Z.

Module CheckRunOutput.
Record t : Type := mk {
  Title : option string;
  Summary : option string;
  Text : option string
}.
End CheckRunOutput.

Module CheckRun.
Record t : Type := mk {
  ID : option Z;
  Name : option string;
  HeadSHA : option string;
  DetailsURL : option string;
  ExternalID : option string;
  Status : option string;
  Conclusion : option string;
  StartedAt : option Timestamp;
  CompletedAt : option Timestamp;
  Output : option CheckRunOutput.t
}.
End CheckRun.

(** Nil-safe getters on a [*github.CheckRun]. *)
Definition GetID (c : option CheckRun.t) : Z :=
  match c with
  | Some r => match CheckRun.ID r with Some i => i | None => 0 end
  | None => 0
  end.

Definition GetStatus (c : option CheckRun.t) : string :=
  match c with
  | Some r => match CheckRun.Status r with Some s => s | None => EmptyString end
  | None => EmptyString
  end.

Module CreateCheckRunOptions.
Record t : Type := mk {
  Name : string;
  HeadSHA : string;
  DetailsURL : option string;
  ExternalID : option string;
  Status : option string;
  Conclusion : option string;
  StartedAt : option Timestamp;
  CompletedAt : option Timestamp;
  Output : option CheckRunOutput.t
}.
End CreateCheckRunOptions.

Module UpdateCheckRunOptions.
Record t : Type := mk {
  Name : string;
  Status : option string;
  Conclusion : option string;
  CompletedAt : option Timestamp;
  Output : option CheckRunOutput.t
}.
End UpdateCheckRunOptions.

Module ListCheckRunsResults.
Record t : Type := mk {
  Total : option Z;
  CheckRuns : list CheckRun.t
}.
End ListCheckRunsResults.

Module PullRequestBranch.
Record t : Type := mk { SHA : option string }.
End PullRequestBranch.

Module PullRequest.
Record t : Type := mk {
  Title : option string;
  Head : option PullRequestBranch.t
}.
End PullRequest.

Module PullRequestEvent.
Record t : Type := mk {
  Action : option string;
  PullRequest : option PullRequest.t;
  Before : option string;
  After : option string
}.
End PullRequestEvent.

Definition GetString (s : option string) : string :=
  match s with Some x => x | None => EmptyString end.

Definition GetTitle (pr : option PullRequest.t) : string :=
  match pr with Some r => GetString (PullRequest.Title r) | None => EmptyString end.

Definition GetHead (pr : option PullRequest.t) : option PullRequestBranch.t :=
  match pr with Some r => PullRequest.Head r | None => None end.

Definition GetSHA (b : option PullRequestBranch.t) : string :=
  match b with Some r => GetString (PullRequestBranch.SHA r) | None => EmptyString end.

Definition GetAction (ev : PullRequestEvent.t) : string :=
  GetString (PullRequestEvent.Action ev).
Definition GetPullRequest (ev : PullRequestEvent.t) : option PullRequest.t :=
  PullRequestEvent.PullRequest ev.
Definition GetBefore (ev : PullRequestEvent.t) : string :=
  GetString (PullRequestEvent.Before ev).
Definition GetAfter (ev : PullRequestEvent.t) : string :=
  GetString (PullRequestEvent.After ev).

(** Modelled from the spec: the [CheckRunStatus] constants [Started] and
    [Finished] and their methods [StringP] and [Equal] are declared outside
    plugin.go. The spec gives the statuses queued, in-progress and completed;
    [Started] is the in-progress status and [Finished] the completed one. *)
Module CheckRunStatus.
Definition t : Type := string.
Definition Started : t := "in-progress".
Definition Finished : t := "completed".
Definition StringP (s : t) : option string := Some s.
Definition Equal (s : t) (status : string) : bool := String.eqb s status.
End CheckRunStatus.
Import CheckRunStatus.

(* ====================================================================== *)
(** * The world: the remote Checks service seen through the client *)
(* ====================================================================== *)

(** A check-run kept by the service, with the repository it belongs to. *)
Record Entry : Type := mkEntry {
  e_owner : string;
  e_repo : string;
  e_run : CheckRun.t
}.

(** What the plugin does to its surroundings, in order: the three calls of
    [client.Checks] and the invocation of the verification function. *)
Inductive Call : Type :=
| CallCreate (owner repo : string) (opts : CreateCheckRunOptions.t)
| CallList (owner repo ref : string) (checkName : option string)
| CallUpdate (owner repo : string) (id : Z) (opts : UpdateCheckRunOptions.t)
| CallProcessPR (pr : option PullRequest.t).

(** A failing remote call: the error, and the check-run pointer handed back
    with it (go-github hands back nil with every error). *)
Record Fault : Type := mkFault {
  fault_run : option CheckRun.t;
  fault_err : error
}.

(** [faults] is consumed one entry per remote call: [Some f] makes that call
    fail with [f], [None] (or an exhausted script) lets the service answer. *)
Record World : Type := mkWorld {
  store : list Entry;
  nextID : Z;
  clock : Timestamp;
  faults : list (option Fault);
  trace : list Call
}.

Definition set_store (s : list Entry) (w : World) : World :=
  mkWorld s (nextID w) (clock w) (faults w) (trace w).
Definition set_nextID (n : Z) (w : World) : World :=
  mkWorld (store w) n (clock w) (faults w) (trace w).
Definition set_faults (f : list (option Fault)) (w : World) : World :=
  mkWorld (store w) (nextID w) (clock w) f (trace w).
Definition set_trace (t : list Call) (w : World) : World :=
  mkWorld (store w) (nextID w) (clock w) (faults w) t.

(** ** The monad of plugin methods *)

Inductive outcome (A : Type) : Type :=
| Returned (a : A)
| Panicked.
Arguments Returned {A} a.
Arguments Panicked {A}.

Definition M (A : Type) : Type := World -> outcome A * World.

Definition ret {A} (a : A) : M A := fun w => (Returned a, w).

Definition bind {A B} (c : M A) (k : A -> M B) : M B :=
  fun w =>
    match c w with
    | (Returned a, w') => k a w'
    | (Panicked, w') => (Panicked, w')
    end.

(** A run-time panic: nil pointer dereference or index out of range. *)
Definition panic {A} : M A := fun w => (Panicked, w).

Notation "x <- c1 ;; c2" := (bind c1 (fun x => c2))
  (at level 61, c1 at next level, right associativity).
Notation "' pat <- c1 ;; c2" :=
  (bind c1 (fun x => match x with pat => c2 end))
  (at level 61, pat pattern, c1 at next level, right associativity).
Notation "c1 ;; c2" := (bind c1 (fun _ => c2))
  (at level 61, right associativity).

Definition emit (c : Call) : M unit :=
  fun w => (Returned tt, set_trace (trace w ++ [c])%list w).

Definition nextFault : M (option Fault) :=
  fun w => (Returned (hd None (faults w)), set_faults (tl (faults w)) w).

(** [time.Now()]. *)
Definition time_Now : M Timestamp := fun w => (Returned (clock w), w).

(** ** The service *)

Definition option_string_eqb (a b : option string) : bool :=
  match a, b with
  | Some x, Some y => String.eqb x y
  | None, None => true
  | _, _ => false
  end.

Definition option_Z_eqb (a b : option Z) : bool :=
  match a, b with
  | Some x, Some y => Z.eqb x y
  | None, None => true
  | _, _ => false
  end.

Definition inRepo (owner repo : string) (e : Entry) : bool :=
  String.eqb (e_owner e) owner && String.eqb (e_repo e) repo.

(** The runs the service lists for a ref, under an optional name filter. *)
Definition matches (owner repo ref : string) (checkName : option string)
    (e : Entry) : bool :=
  inRepo owner repo e
  && option_string_eqb (CheckRun.HeadSHA (e_run e)) (Some ref)
  && match checkName with
     | Some n => option_string_eqb (CheckRun.Name (e_run e)) (Some n)
     | None => true
     end.

Definition hasID (owner repo : string) (id : Z) (e : Entry) : bool :=
  inRepo owner repo e && option_Z_eqb (CheckRun.ID (e_run e)) (Some id).

(** A given conclusion completes the run; the status defaults to queued. *)
Definition newRun (id : Z) (o : CreateCheckRunOptions.t) : CheckRun.t :=
  CheckRun.mk (Some id)
    (Some (CreateCheckRunOptions.Name o))
    (Some (CreateCheckRunOptions.HeadSHA o))
    (CreateCheckRunOptions.DetailsURL o)
    (CreateCheckRunOptions.ExternalID o)
    (match CreateCheckRunOptions.Conclusion o with
     | Some _ => Some "completed"
     | None =>
         match CreateCheckRunOptions.Status o with
         | Some s => Some s
         | None => Some "queued"
         end
     end)
    (CreateCheckRunOptions.Conclusion o)
    (CreateCheckRunOptions.StartedAt o)
    (CreateCheckRunOptions.CompletedAt o)
    (CreateCheckRunOptions.Output o).

Definition orElse {A} (new old : option A) : option A :=
  match new with Some _ => new | None => old end.

(** Fields absent from the request keep their value. *)
Definition applyUpdate (o : UpdateCheckRunOptions.t) (r : CheckRun.t)
    : CheckRun.t :=
  CheckRun.mk (CheckRun.ID r)
    (Some (UpdateCheckRunOptions.Name o))
    (CheckRun.HeadSHA r)
    (CheckRun.DetailsURL r)
    (CheckRun.ExternalID r)
    (match UpdateCheckRunOptions.Conclusion o with
     | Some _ => Some "completed"
     | None => orElse (UpdateCheckRunOptions.Status o) (CheckRun.Status r)
     end)
    (orElse (UpdateCheckRunOptions.Conclusion o) (CheckRun.Conclusion r))
    (CheckRun.StartedAt r)
    (orElse (UpdateCheckRunOptions.CompletedAt o) (CheckRun.CompletedAt r))
    (orElse (UpdateCheckRunOptions.Output o) (CheckRun.Output r)).

Definition updateEntry (owner repo : string) (id : Z)
    (o : UpdateCheckRunOptions.t) (e : Entry) : Entry :=
  if hasID owner repo id e
  then mkEntry (e_owner e) (e_repo e) (applyUpdate o (e_run e))
  else e.

Definition notFound : error := errorString "404 Not Found".

Module Checks.

(** [client.Checks.CreateCheckRun]; the [*Response] is only logged. *)
Definition CreateCheckRun (owner repo : string)
    (opts : CreateCheckRunOptions.t) : M (option CheckRun.t * option error) :=
  emit (CallCreate owner repo opts) ;;
  f <- nextFault ;;
  match f with
  | Some flt => ret (fault_run flt, Some (fault_err flt))
  | None =>
      fun w =>
        let run := newRun (nextID w) opts in
        (Returned (Some run, None),
         set_nextID (nextID w + 1)
           (set_store (store w ++ [mkEntry owner repo run])%list w))
  end.

(** [client.Checks.ListCheckRunsForRef]. An answered call lists the stored
    runs that match, with their number as the total: the answer is always
    well formed. What [getCheckRun] does with any other answer is stated on
    [selectCheckRun]. *)
Definition ListCheckRunsForRef (owner repo ref : string)
    (checkName : option string)
    : M (option ListCheckRunsResults.t * option error) :=
  emit (CallList owner repo ref checkName) ;;
  f <- nextFault ;;
  match f with
  | Some flt => ret (None, Some (fault_err flt))
  | None =>
      fun w =>
        let found :=
          map e_run (filter (matches owner repo ref checkName) (store w)) in
        (Returned
           (Some (ListCheckRunsResults.mk
                    (Some (Z.of_nat (length found))) found), None),
         w)
  end.

(** [client.Checks.UpdateCheckRun]. *)
Definition UpdateCheckRun (owner repo : string) (id : Z)
    (opts : UpdateCheckRunOptions.t) : M (option CheckRun.t * option error) :=
  emit (CallUpdate owner repo id opts) ;;
  f <- nextFault ;;
  match f with
  | Some flt => ret (fault_run flt, Some (fault_err flt))
  | None =>
      fun w =>
        match find (hasID owner repo id) (store w) with
        | None => (Returned (None, Some notFound), w)
        | Some e =>
            (Returned (Some (applyUpdate opts (e_run e)), None),
             set_store (map (updateEntry owner repo id opts) (store w)) w)
        end
  end.

End Checks.

(* ====================================================================== *)
(** * plugin.go *)
(* ====================================================================== *)

Module PRPlugin.
(** plugin.go:35. *)
Record t : Type := mk {
  ProcessPR : option PullRequest.t -> string * option error;
  Name : string;
  Title : string
}.
End PRPlugin.

Module ActionsEnv.
(** [ActionsEnv], declared outside plugin.go: the fields that plugin.go
    reads. Its [Client] is the [World]. *)
Record t : Type := mk {
  Owner : string;
  Repo : string;
  Event : PullRequestEvent.t
}.
End ActionsEnv.

(** [p.ProcessPR(pr)], traced. *)
Definition callProcessPR (p : PRPlugin.t) (pr : option PullRequest.t)
    : M (string * option error) :=
  emit (CallProcessPR pr) ;;
  ret (PRPlugin.ProcessPR p pr).

(** plugin.go:44. *)
Definition processPR (p : PRPlugin.t) (pr : option PullRequest.t)
    : M (string * string * string * option error) :=
  '(text, err) <- callProcessPR p pr ;;
  match err with
  | Some e =>
      let conclusion := "failure" in
      let summary := Error e in
      let text :=
        match errors_As e with
        | Some helpErr => Help helpErr
        | None => text
        end in
      ret (conclusion, summary, text, err)
  | None =>
      let conclusion := "success" in
      let summary := "Success" in
      ret (conclusion, summary, text, err)
  end.

(** The options of plugin.go:187. *)
Definition finishOptions (p : PRPlugin.t) (now : Timestamp)
    (conclusion summary text : string) : UpdateCheckRunOptions.t :=
  UpdateCheckRunOptions.mk
    (PRPlugin.Name p)
    None
    (Some conclusion)
    (Some now)
    (Some (CheckRunOutput.mk
             (Some (PRPlugin.Title p)) (Some summary) (Some text))).

(** plugin.go:184. *)
Definition finishCheckRun (p : PRPlugin.t) (owner repo : string)
    (checkRunID : Z) (conclusion summary text : string)
    : M (option CheckRun.t * option error) :=
  now <- time_Now ;;
  '(checkRun, err) <-
    Checks.UpdateCheckRun owner repo checkRunID
      (finishOptions p now conclusion summary text) ;;
  match err with
  | Some e =>
      ret (checkRun,
           Some (Errorf_w "unable to update check run with results: " e))
  | None => ret (checkRun, None)
  end.

(** plugin.go:68. *)
Definition processAndSubmit (p : PRPlugin.t) (env : ActionsEnv.t)
    (checkRun : option CheckRun.t) : M (option CheckRun.t * option error) :=
  '(conclusion, summary, text, procErr) <-
    processPR p (PullRequestEvent.PullRequest (ActionsEnv.Event env)) ;;
  '(checkRun, err) <-
    finishCheckRun p (ActionsEnv.Owner env) (ActionsEnv.Repo env)
      (GetID checkRun) conclusion summary text ;;
  match err with
  | Some _ => ret (checkRun, err)
  | None =>
      match procErr with
      | Some pe => ret (checkRun, Some (Errorf_v "failed: " (Error pe)))
      | None => ret (checkRun, None)
      end
  end.

(** The options of plugin.go:99. *)
Definition createOptions (p : PRPlugin.t) (headSHA : string)
    : CreateCheckRunOptions.t :=
  CreateCheckRunOptions.mk
    (PRPlugin.Name p) headSHA None None (StringP Started) None None None None.

(** plugin.go:92. *)
Definition createCheckRun (p : PRPlugin.t) (owner repo headSHA : string)
    : M (option CheckRun.t * option error) :=
  '(checkRun, err) <-
    Checks.CreateCheckRun owner repo (createOptions p headSHA) ;;
  match err with
  | Some e => ret (None, Some (Errorf_w "unable to create check run: " e))
  | None => ret (checkRun, None)
  end.

(** The error of plugin.go:142. *)
Definition multipleInstances (p : PRPlugin.t) (owner repo headSHA : string)
    : error :=
  errorString
    ("multiple instances of `" ++ PRPlugin.Name p ++ "` check run found on "
     ++ owner ++ "/" ++ repo ++ " @ " ++ headSHA).

(** The error of plugin.go:145. *)
Definition negativeInstances (n : Z) (p : PRPlugin.t)
    (owner repo headSHA : string) : error :=
  errorString
    ("negative number of instances (" ++ fmt_d n ++ ") of `"
     ++ PRPlugin.Name p ++ "` check run found on "
     ++ owner ++ "/" ++ repo ++ " @ " ++ headSHA).

(** plugin.go:117. *)
Definition getCheckRun (p : PRPlugin.t) (owner repo headSHA : string)
    : M (option CheckRun.t * option error) :=
  '(checkRunList, err) <-
    Checks.ListCheckRunsForRef owner repo headSHA (Some (PRPlugin.Name p)) ;;
  match err with
  | Some e => ret (None, Some (Errorf_w "unable to list check runs: " e))
  | None =>
      match checkRunList with
      | None => panic
      | Some l =>
          match ListCheckRunsResults.Total l with
          | None => panic
          | Some n =>
              if n =? 0 then createCheckRun p owner repo headSHA
              else if n =? 1 then
                match ListCheckRunsResults.CheckRuns l with
                | r :: _ => ret (Some r, None)
                | [] => panic
                end
              else if n >? 1 then
                ret (None, Some (multipleInstances p owner repo headSHA))
              else
                ret (None, Some (negativeInstances n p owner repo headSHA))
          end
      end
  end.

(** plugin.go:129-147 as a function of what the list call has answered:
    [getCheckRun] is the list call followed by [selectCheckRun]. It is
    defined for every answer, also for those that the service modelled in
    [Checks] never gives (a nil list, a nil or negative total, a total of
    one with no run listed). *)
Definition selectCheckRun (p : PRPlugin.t) (owner repo headSHA : string)
    (checkRunList : option ListCheckRunsResults.t) (err : option error)
    : M (option CheckRun.t * option error) :=
  match err with
  | Some e => ret (None, Some (Errorf_w "unable to list check runs: " e))
  | None =>
      match checkRunList with
      | None => panic
      | Some l =>
          match ListCheckRunsResults.Total l with
          | None => panic
          | Some n =>
              if n =? 0 then createCheckRun p owner repo headSHA
              else if n =? 1 then
                match ListCheckRunsResults.CheckRuns l with
                | r :: _ => ret (Some r, None)
                | [] => panic
                end
              else if n >? 1 then
                ret (None, Some (multipleInstances p owner repo headSHA))
              else
                ret (None, Some (negativeInstances n p owner repo headSHA))
          end
      end
  end.

(** The options of plugin.go:167. *)
Definition resetOptions (p : PRPlugin.t) : UpdateCheckRunOptions.t :=
  UpdateCheckRunOptions.mk
    (PRPlugin.Name p) (Some "in-progress") None None None.

(** plugin.go:153. The results of the update call are assigned to the
    variables [checkRun] and [err] already in scope. *)
Definition resetCheckRun (p : PRPlugin.t) (owner repo headSHA : string)
    : M (option CheckRun.t * option error) :=
  '(checkRun, err) <- getCheckRun p owner repo headSHA ;;
  match err with
  | Some _ => ret (checkRun, err)
  | None =>
      if Equal Started (GetStatus checkRun) then ret (checkRun, err)
      else
        '(checkRun, err) <-
          Checks.UpdateCheckRun owner repo (GetID checkRun)
            (resetOptions p) ;;
        match err with
        | Some e =>
            ret (checkRun, Some (Errorf_w "unable to reset check run: " e))
        | None => ret (checkRun, None)
        end
  end.

(** The options of plugin.go:215. *)
Definition duplicateOptions (p : PRPlugin.t) (headSHA : string)
    (src : CheckRun.t) : CreateCheckRunOptions.t :=
  CreateCheckRunOptions.mk
    (PRPlugin.Name p)
    headSHA
    (CheckRun.DetailsURL src)
    (CheckRun.ExternalID src)
    (CheckRun.Status src)
    (CheckRun.Conclusion src)
    (CheckRun.StartedAt src)
    (CheckRun.CompletedAt src)
    (CheckRun.Output src).

(** plugin.go:208. Reading the fields of a nil [checkRun] panics. *)
Definition duplicateCheckRun (p : PRPlugin.t) (owner repo headSHA : string)
    (checkRun : option CheckRun.t) : M (option CheckRun.t * option error) :=
  match checkRun with
  | None => panic
  | Some src =>
      '(checkRun, err) <-
        Checks.CreateCheckRun owner repo (duplicateOptions p headSHA src) ;;
      match err with
      | Some e =>
          ret (None, Some (Errorf_w "unable to create duplicate check run: " e))
      | None => ret (checkRun, None)
      end
  end.

(** The head SHA of the event's pull request. *)
Definition headSHAOf (env : ActionsEnv.t) : string :=
  GetSHA (GetHead (GetPullRequest (ActionsEnv.Event env))).

(** plugin.go:289 and 333: [*checkRun.Conclusion == "failure"], then
    [fmt.Errorf("failed: %v", *checkRun.Output.Summary)]. *)
Definition failureOf (checkRun : option CheckRun.t) : M (option error) :=
  match checkRun with
  | None => panic
  | Some r =>
      match CheckRun.Conclusion r with
      | None => panic
      | Some c =>
          if String.eqb c "failure" then
            match CheckRun.Output r with
            | None => panic
            | Some o =>
                match CheckRunOutput.Summary o with
                | None => panic
                | Some s => ret (Some (Errorf_v "failed: " s))
                end
            end
          else ret None
      end
  end.

(** plugin.go:260. *)
Definition onOpen (p : PRPlugin.t) (env : ActionsEnv.t) : M (option error) :=
  '(checkRun, err) <-
    createCheckRun p (ActionsEnv.Owner env) (ActionsEnv.Repo env)
      (headSHAOf env) ;;
  match err with
  | Some _ => ret err
  | None =>
      '(_, err) <- processAndSubmit p env checkRun ;;
      ret err
  end.

(** plugin.go:273. *)
Definition onReopen (p : PRPlugin.t) (env : ActionsEnv.t) : M (option error) :=
  '(checkRun, err) <-
    getCheckRun p (ActionsEnv.Owner env) (ActionsEnv.Repo env)
      (headSHAOf env) ;;
  match err with
  | Some _ => ret err
  | None =>
      if negb (Equal Finished (GetStatus checkRun)) then
        '(_, err) <- processAndSubmit p env checkRun ;;
        ret err
      else failureOf checkRun
  end.

(** plugin.go:296. *)
Definition onEdit (p : PRPlugin.t) (env : ActionsEnv.t) : M (option error) :=
  '(checkRun, err) <-
    resetCheckRun p (ActionsEnv.Owner env) (ActionsEnv.Repo env)
      (headSHAOf env) ;;
  match err with
  | Some _ => ret err
  | None =>
      '(_, err) <- processAndSubmit p env checkRun ;;
      ret err
  end.

(** plugin.go:309. *)
Definition onSync (p : PRPlugin.t) (env : ActionsEnv.t) : M (option error) :=
  '(checkRun, err) <-
    getCheckRun p (ActionsEnv.Owner env) (ActionsEnv.Repo env)
      (GetBefore (ActionsEnv.Event env)) ;;
  match err with
  | Some _ => ret err
  | None =>
      let duplicate (checkRun : option CheckRun.t) : M (option error) :=
        '(checkRun, err) <-
          duplicateCheckRun p (ActionsEnv.Owner env) (ActionsEnv.Repo env)
            (GetAfter (ActionsEnv.Event env)) checkRun ;;
        match err with
        | Some _ => ret err
        | None => failureOf checkRun
        end in
      if negb (Equal Finished (GetStatus checkRun)) then
        '(checkRun, err) <- processAndSubmit p env checkRun ;;
        match err with
        | Some _ => ret err
        | None => duplicate checkRun
        end
      else duplicate checkRun
  end.

(** plugin.go:242. *)
Definition entrypoint (p : PRPlugin.t) (env : ActionsEnv.t)
    : M (option error) :=
  let action := GetAction (ActionsEnv.Event env) in
  if String.eqb action "open" then onOpen p env
  else if String.eqb action "reopen" then onReopen p env
  else if String.eqb action "edit" then onEdit p env
  else if String.eqb action "synchronize" then onSync p env
  else ret None.

(* ====================================================================== *)
(** * type.go *)
(* ====================================================================== *)

(** The title classifier of package [notes], used as a black box: the type
    of PR kinds with its uncategorized sentinel, [PRTypeFromTitle], and the
    two renderings of a kind that [verifyPRType] prints. *)
Class Notes : Type := {
  PRType : Type;
  UncategorizedPR : PRType;
  PRType_eqb : PRType -> PRType -> bool;
  PRType_eqb_eq : forall a b, PRType_eqb a b = true <-> a = b;
  PRTypeFromTitle : string -> PRType * string;
  Emoji : PRType -> string;
  PRType_String : PRType -> string
}.

Definition nl : string := String (ascii_of_nat 10) EmptyString.
Definition tab : string := String (ascii_of_nat 9) EmptyString.

Section TypeGo.

Context `{Notes}.

(** The [%#q] verb of package [fmt] on a string. *)
Variable sharp_q : string -> string.

(** type.go:34: the method [Details] of [prTitleTypeError]. *)
Definition Details (title : string) : string :=
  "I saw a title of " ++ sharp_q title
  ++ ", which doesn't seem to have any of the acceptable prefixes." ++ nl
  ++ nl
  ++ "You need to have one of these as the prefix of your PR title:" ++ nl
  ++ nl
  ++ "- Breaking change: ⚠ (" ++ sharp_q ":warning:" ++ ")" ++ nl
  ++ "- Non-breaking feature: ✨ (" ++ sharp_q ":sparkles:" ++ ")" ++ nl
  ++ "- Patch fix: 🐛 (" ++ sharp_q ":bug:" ++ ")" ++ nl
  ++ "- Docs: 📖 (" ++ sharp_q ":book:" ++ ")" ++ nl
  ++ "- Infra/Tests/Other: 🌱 (" ++ sharp_q ":seedling:" ++ ")" ++ nl
  ++ nl
  ++ "More details can be found at [sigs.k8s.io/kubebuilder-release-tools/VERSIONING.md](https://sigs.k8s.io/kubebuilder-release-tools/VERSIONING.md).".

(** type.go:51. *)
Definition verifyPRType (pr : option PullRequest.t)
    : string * option error :=
  let '(prType, finalTitle) := PRTypeFromTitle (GetTitle pr) in
  if PRType_eqb prType UncategorizedPR then
    (EmptyString, Some (prTitleTypeError (GetTitle pr)))
  else
    ("Found " ++ Emoji prType ++ " PR (" ++ PRType_String prType
     ++ ") with final title:" ++ nl
     ++ nl
     ++ tab ++ finalTitle ++ nl,
     None).

End TypeGo.

(* ====================================================================== *)
(** * Vocabulary for the statements *)
(* ====================================================================== *)

(** The next remote call is answered by the service, not by a failure. *)
Definition served (w : World) : Prop := hd None (faults w) = None.

(** The world once the call [c] is issued: traced, one script entry used. *)
Definition called (c : Call) (w : World) : World :=
  set_faults (tl (faults w)) (set_trace (trace w ++ [c])%list w).

(** The world once an answered create call has stored its run. *)
Definition created (owner repo : string) (opts : CreateCheckRunOptions.t)
    (w : World) : World :=
  set_nextID (nextID w + 1)
    (set_store (store w ++ [mkEntry owner repo (newRun (nextID w) opts)])%list
       (called (CallCreate owner repo opts) w)).

(** The world once an answered update call has changed the run [id]. *)
Definition updated (owner repo : string) (id : Z)
    (opts : UpdateCheckRunOptions.t) (w : World) : World :=
  set_store (map (updateEntry owner repo id opts) (store w))
    (called (CallUpdate owner repo id opts) w).

(** The runs that a lookup of [(name, sha)] finds. *)
Definition found (p : PRPlugin.t) (owner repo sha : string) (w : World)
    : list CheckRun.t :=
  map e_run
    (filter (matches owner repo sha (Some (PRPlugin.Name p))) (store w)).


(** What [processPR] returns, as a function of what [ProcessPR] returns. *)
Definition verdict (p : PRPlugin.t) (pr : option PullRequest.t)
    : string * string * string * option error :=
  match snd (PRPlugin.ProcessPR p pr) with
  | Some e =>
      ("failure", Error e,
       match errors_As e with
       | Some h => Help h
       | None => fst (PRPlugin.ProcessPR p pr)
       end,
       Some e)
  | None => ("success", "Success", fst (PRPlugin.ProcessPR p pr), None)
  end.

(** The world once the verification function has been invoked on [pr]. *)
Definition invoked (pr : option PullRequest.t) (w : World) : World :=
  set_trace (trace w ++ [CallProcessPR pr])%list w.

(** The error by which a handler reports a failed verification. *)
Definition failed (msg : string) : error := Errorf_v "failed: " msg.

(** The update request by which [processAndSubmit] finishes a run. *)
Definition submission (p : PRPlugin.t) (env : ActionsEnv.t) (w : World)
    : UpdateCheckRunOptions.t :=
  let '(conclusion, summary, text, _) :=
    verdict p (PullRequestEvent.PullRequest (ActionsEnv.Event env)) in
  finishOptions p (clock w) conclusion summary text.

(** The tail of the handlers that end with [processAndSubmit]. *)
Definition submitted (p : PRPlugin.t) (env : ActionsEnv.t)
    (checkRun : option CheckRun.t) : M (option error) :=
  '(_, err) <- processAndSubmit p env checkRun ;;
  ret err.

Definition isVerification (c : Call) : bool :=
  match c with CallProcessPR _ => true | _ => false end.

(** [w'] continues [w] at the same clock and by remote calls only. *)
Definition quietly (w w' : World) : Prop :=
  clock w' = clock w /\
  exists delta : list Call,
    trace w' = (trace w ++ delta)%list /\ existsb isVerification delta = false.



(** The handler that the action selects has obtained the run [c], in world
    [w0], and goes on to verify it: [onOpen] has created it, [onEdit] has
    reset it, [onReopen] and [onSync] have fetched it and found it not
    completed. *)
Definition acquires (p : PRPlugin.t) (env : ActionsEnv.t) (w : World)
    (c : option CheckRun.t) (w0 : World) : Prop :=
  let action := GetAction (ActionsEnv.Event env) in
  let owner := ActionsEnv.Owner env in
  let repo := ActionsEnv.Repo env in
  (action = "open" /\
   createCheckRun p owner repo (headSHAOf env) w = (Returned (c, None), w0))
  \/
  (action = "reopen" /\
   getCheckRun p owner repo (headSHAOf env) w = (Returned (c, None), w0) /\
   Equal Finished (GetStatus c) = false)
  \/
  (action = "edit" /\
   resetCheckRun p owner repo (headSHAOf env) w = (Returned (c, None), w0))
  \/
  (action = "synchronize" /\
   getCheckRun p owner repo (GetBefore (ActionsEnv.Event env)) w
   = (Returned (c, None), w0) /\
   Equal Finished (GetStatus c) = false).

(** A check-run is complete and carries what the handlers dereference. *)
Definition completed (r : CheckRun.t) : bool :=
  Equal Finished (GetStatus (Some r)).



(** The remote calls and the invocations of the verification function in
    a stretch of trace. *)
Definition remoteCalls (l : list Call) : nat :=
  length (filter (fun c => negb (isVerification c)) l).
Definition verifications (l : list Call) : nat :=
  length (filter isVerification l).

(** [w'] continues [w] by at most [n] remote calls and [v] invocations. *)
Definition within (n v : nat) (w w' : World) : Prop :=
  exists delta : list Call,
    trace w' = (trace w ++ delta)%list /\
    (remoteCalls delta <= n)%nat /\ (verifications delta <= v)%nat.

(** The computation [c] costs at most [n] remote calls and [v] invocations
    from any world. *)
Definition costs {A} (n v : nat) (c : M A) : Prop :=
  forall w : World, within n v w (snd (c w)).

(** What ties a stored run to its place: repository, id and commit. *)
Definition binding (e : Entry) : string * string * option Z * option string :=
  (e_owner e, e_repo e, CheckRun.ID (e_run e), CheckRun.HeadSHA (e_run e)).

(** [w'] holds the runs of [w], each where it was and bound as it was,
    followed by at most [n] new ones. *)
Definition grows (n : nat) (w w' : World) : Prop :=
  exists extra : list Entry,
    map binding (store w') = (map binding (store w) ++ map binding extra)%list
    /\ (length extra <= n)%nat.

Definition adds {A} (n : nat) (c : M A) : Prop :=
  forall w : World, grows n w (snd (c w)).

(** No stored run of the repository has the id that the service gives next. *)
Definition freshID (owner repo : string) (w : World) : Prop :=
  forall en : Entry, In en (store w) -> hasID owner repo (nextID w) en = false.

(* ====================================================================== *)
(** * Concrete inputs *)
(* ====================================================================== *)

(** Modelled from the spec: package [notes] is outside these sources. A
    classifier in the shape the spec gives it: five recognised kinds and the
    uncategorized sentinel; a title is classified by its prefix, in the
    textual or the emoji form that the help text of type.go lists, and the
    cleaned title is the rest without leading blanks. It only serves as a
    concrete instance of [Notes]. *)
Module SpecNotes.

Inductive kind : Type :=
| Uncategorized | Breaking | Feature | Bugfix | Docs | Infra.

Definition kind_eqb (a b : kind) : bool :=
  match a, b with
  | Uncategorized, Uncategorized | Breaking, Breaking | Feature, Feature
  | Bugfix, Bugfix | Docs, Docs | Infra, Infra => true
  | _, _ => false
  end.

Definition prefixes : list (string * kind) :=
  [ (":warning:", Breaking); ("⚠", Breaking);
    (":sparkles:", Feature); ("✨", Feature);
    (":bug:", Bugfix); ("🐛", Bugfix);
    (":book:", Docs); ("📖", Docs);
    (":seedling:", Infra); ("🌱", Infra) ].

Fixpoint trimLeft (s : string) : string :=
  match s with
  | String c rest => if Ascii.eqb c " "%char then trimLeft rest else s
  | EmptyString => s
  end.

Definition dropPrefix (pre s : string) : string :=
  substring (String.length pre) (String.length s - String.length pre) s.

Fixpoint classifyWith (table : list (string * kind)) (title : string)
    : kind * string :=
  match table with
  | [] => (Uncategorized, title)
  | (pre, k) :: rest =>
      if String.prefix pre title then (k, trimLeft (dropPrefix pre title))
      else classifyWith rest title
  end.

Definition classify (title : string) : kind * string :=
  classifyWith prefixes (trimLeft title).

Definition emoji (k : kind) : string :=
  match k with
  | Uncategorized => "<uncategorized>"
  | Breaking => "⚠"
  | Feature => "✨"
  | Bugfix => "🐛"
  | Docs => "📖"
  | Infra => "🌱"
  end.

Definition label (k : kind) : string :=
  match k with
  | Uncategorized => "uncategorized"
  | Breaking => "breaking"
  | Feature => "feature"
  | Bugfix => "bugfix"
  | Docs => "docs"
  | Infra => "infra"
  end.

Definition kind_eqb_eq (a b : kind) : kind_eqb a b = true <-> a = b.
Proof. destruct a, b; simpl; split; congruence. Defined.

#[export] Instance notes : Notes := {|
  PRType := kind;
  UncategorizedPR := Uncategorized;
  PRType_eqb := kind_eqb;
  PRType_eqb_eq := kind_eqb_eq;
  PRTypeFromTitle := classify;
  Emoji := emoji;
  PRType_String := label
|}.

(** [%#q] on a string that can be written between backquotes. *)
Definition backquoted (s : string) : string := "`" ++ s ++ "`".

End SpecNotes.

(** A world with nothing stored and no failure scripted. *)
Definition emptyWorld : World := mkWorld [] 1 0 [] [].

Definition prOf (title sha : string) : option PullRequest.t :=
  Some (PullRequest.mk (Some title) (Some (PullRequestBranch.mk (Some sha)))).

(** Plugins whose verification function ignores the pull request. *)
Definition constPlugin (text : string) (err : option error) : PRPlugin.t :=
  PRPlugin.mk (fun _ => (text, err)) "PR Type" "PR Type in Title".

(** The title check as a plugin, over the classifier above. *)
Definition typePlugin : PRPlugin.t :=
  PRPlugin.mk (@verifyPRType SpecNotes.notes) "PR Type" "PR Type in Title".

(** Stored runs of the check "PR Type". *)
Definition runOf (id : Z) (sha status : string) (conclusion : option string)
    (output : option CheckRunOutput.t) : CheckRun.t :=
  CheckRun.mk (Some id) (Some "PR Type") (Some sha) None None (Some status)
    conclusion None None output.

Definition outputOf (summary text : string) : CheckRunOutput.t :=
  CheckRunOutput.mk (Some "PR Type in Title") (Some summary) (Some text).

Definition runningRun (id : Z) (sha : string) : CheckRun.t :=
  runOf id sha "in-progress" None None.
Definition passedRun (id : Z) (sha : string) : CheckRun.t :=
  runOf id sha "completed" (Some "success") (Some (outputOf "Success" "ok")).
Definition failedRun (id : Z) (sha : string) : CheckRun.t :=
  runOf id sha "completed" (Some "failure") (Some (outputOf "boom" "details")).

(** The repository o/r holding [runs], with a script of failures. *)
Definition worldOf (runs : list CheckRun.t) (script : list (option Fault))
    : World :=
  mkWorld (map (mkEntry "o" "r") runs) 10 0 script [].

(** An event on o/r: the head moved from sha1 to sha2. *)
Definition envOf (action title : string) : ActionsEnv.t :=
  ActionsEnv.mk "o" "r"
    (PullRequestEvent.mk (Some action) (prOf title "sha2")
       (Some "sha1") (Some "sha2")).

Definition unavailable : Fault := mkFault None (errorString "503 Service Unavailable").

Definition passing : PRPlugin.t := constPlugin "ok" None.
Definition failing : PRPlugin.t :=
  constPlugin "details" (Some (errorString "boom")).

(* ====================================================================== *)
(** * Properties *)
(* ====================================================================== *)

(** ** Errors *)

Lemma errors_As_chain (e : error) :
  errors_As e =
  match assertErrorWithHelp e with
  | Some h => Some h
  | None => match Unwrap e with Some inner => errors_As inner | None => None end
  end.
Proof. destruct e as [s|m i|t|m [h|]|m [h|] c]; reflexivity. Qed.

Lemma errors_As_prTitleTypeError (title : string) :
  errors_As (prTitleTypeError title) = None.
Proof. reflexivity. Qed.

(** ** processPR *)

Lemma processPR_run (p : PRPlugin.t) (pr : option PullRequest.t) (w : World) :
  processPR p pr w =
  (Returned (verdict p pr), invoked pr w).
Proof.
  unfold processPR, callProcessPR, verdict, bind, emit, ret.
  destruct (PRPlugin.ProcessPR p pr) as [text [e|]]; reflexivity.
Qed.

Lemma verdict_success (p : PRPlugin.t) (pr : option PullRequest.t)
    (text : string) :
  PRPlugin.ProcessPR p pr = (text, None) ->
  verdict p pr = ("success", "Success", text, None).
Proof. intros E. unfold verdict. rewrite E. reflexivity. Qed.

Lemma verdict_failure (p : PRPlugin.t) (pr : option PullRequest.t)
    (text : string) (e : error) :
  PRPlugin.ProcessPR p pr = (text, Some e) ->
  verdict p pr =
  ("failure", Error e,
   match errors_As e with Some h => Help h | None => text end, Some e).
Proof. intros E. unfold verdict. rewrite E. reflexivity. Qed.

(** C1, as stated, fails: a verification function returning the text
    "details" with a plain error "boom" yields the text "details", which is
    not the error's message. *)
Lemma processPR_plain_error_text_differs :
  errors_As (errorString "boom") = None /\
  fst (processPR (constPlugin "details" (Some (errorString "boom")))
         None emptyWorld)
  = Returned ("failure", "boom", "details", Some (errorString "boom")) /\
  "details" <> Error (errorString "boom").
Proof. repeat split. discriminate. Qed.

(** C1, amended: on [(text, nil)] the outcome is success / "Success" / text;
    on [(text, err)] with an error that exposes no help, the outcome is
    failure / err's message / the returned text, unchanged. The error is
    handed back as the fourth result in both cases. *)
Theorem processPR_outcome (p : PRPlugin.t) (pr : option PullRequest.t)
    (w : World) (text : string) :
  (PRPlugin.ProcessPR p pr = (text, None) ->
   fst (processPR p pr w) = Returned ("success", "Success", text, None)) /\
  (forall err : error,
     PRPlugin.ProcessPR p pr = (text, Some err) ->
     errors_As err = None ->
     fst (processPR p pr w) = Returned ("failure", Error err, text, Some err)).
Proof.
  split.
  - intros E. rewrite processPR_run, (verdict_success _ _ _ E). reflexivity.
  - intros err E HAs.
    rewrite processPR_run, (verdict_failure _ _ _ _ E), HAs. reflexivity.
Qed.

Lemma processPR_outcome_witness :
  fst (processPR (constPlugin "fine" None) None emptyWorld)
  = Returned ("success", "Success", "fine", None) /\
  fst (processPR (constPlugin "details" (Some (errorString "boom")))
         None emptyWorld)
  = Returned ("failure", "boom", "details", Some (errorString "boom")).
Proof.
  split.
  - apply (proj1 (processPR_outcome (constPlugin "fine" None) None
                    emptyWorld "fine")).
    reflexivity.
  - apply (proj2 (processPR_outcome
                    (constPlugin "details" (Some (errorString "boom")))
                    None emptyWorld "details") (errorString "boom"));
      reflexivity.
Defined.

(** C6: when the returned error exposes help text H (found by [errors.As]
    along its [Unwrap] chain), the outcome's text is H, the summary is still
    the error's message and the conclusion is failure. *)
Theorem processPR_help (p : PRPlugin.t) (pr : option PullRequest.t)
    (w : World) (text : string) (err : error) (helpErr : ErrorWithHelp) :
  PRPlugin.ProcessPR p pr = (text, Some err) ->
  errors_As err = Some helpErr ->
  fst (processPR p pr w)
  = Returned ("failure", Error err, Help helpErr, Some err).
Proof.
  intros E HAs.
  rewrite processPR_run, (verdict_failure _ _ _ _ E), HAs. reflexivity.
Qed.

Lemma processPR_help_witness :
  fst (processPR
         (constPlugin "ignored"
            (Some (wrapError "outer: bad title"
                     (pluginError "bad title" (Some "use a prefix")))))
         None emptyWorld)
  = Returned ("failure", "outer: bad title", "use a prefix",
              Some (wrapError "outer: bad title"
                      (pluginError "bad title" (Some "use a prefix")))).
Proof.
  exact (processPR_help
           (constPlugin "ignored"
              (Some (wrapError "outer: bad title"
                       (pluginError "bad title" (Some "use a prefix")))))
           None emptyWorld "ignored"
           (wrapError "outer: bad title"
              (pluginError "bad title" (Some "use a prefix")))
           (mkErrorWithHelp (pluginError "bad title" (Some "use a prefix"))
              "use a prefix")
           eq_refl eq_refl).
Defined.

(** ** verifyPRType *)

Lemma verifyPRType_uncategorized `{Notes} (pr : option PullRequest.t) :
  fst (PRTypeFromTitle (GetTitle pr)) = UncategorizedPR ->
  verifyPRType pr = (EmptyString, Some (prTitleTypeError (GetTitle pr))).
Proof.
  intros E. unfold verifyPRType.
  destruct (PRTypeFromTitle (GetTitle pr)) as [prType finalTitle].
  simpl in E. subst prType.
  assert (Heq : PRType_eqb UncategorizedPR UncategorizedPR = true)
    by (apply PRType_eqb_eq; reflexivity).
  rewrite Heq. reflexivity.
Qed.

(** C7, the code at an uncategorized title: [verifyPRType] fails with a
    [prTitleTypeError], whose methods are [Error] and [Details]; it has no
    [Help] method, so [errors.As] does not find an [ErrorWithHelp] and
    [processPR] leaves the empty text: the text of [Details], with the five
    prefixes and the link, never reaches the outcome. *)
Theorem verifyPRType_help_not_exposed `{Notes} (sharp_q : string -> string)
    (p : PRPlugin.t) (pr : option PullRequest.t) (w : World) :
  PRPlugin.ProcessPR p = verifyPRType ->
  fst (PRTypeFromTitle (GetTitle pr)) = UncategorizedPR ->
  verifyPRType pr = (EmptyString, Some (prTitleTypeError (GetTitle pr))) /\
  assertErrorWithHelp (prTitleTypeError (GetTitle pr)) = None /\
  errors_As (prTitleTypeError (GetTitle pr)) = None /\
  fst (processPR p pr w)
  = Returned ("failure", "no matching PR type indicator found in title", EmptyString,
              Some (prTitleTypeError (GetTitle pr))) /\
  EmptyString <> Details sharp_q (GetTitle pr).
Proof.
  intros Hp Hcat.
  pose proof (verifyPRType_uncategorized pr Hcat) as Hv.
  repeat split; try assumption.
  - rewrite processPR_run. unfold verdict. rewrite Hp, Hv. reflexivity.
  - unfold Details. simpl. discriminate.
Qed.

Lemma verifyPRType_help_not_exposed_witness :
  fst (processPR typePlugin (prOf "Add support for widgets" "abc")
         emptyWorld)
  = Returned ("failure", "no matching PR type indicator found in title", EmptyString,
              Some (prTitleTypeError "Add support for widgets")).
Proof.
  apply (verifyPRType_help_not_exposed (H := SpecNotes.notes)
           SpecNotes.backquoted typePlugin
           (prOf "Add support for widgets" "abc") emptyWorld);
    reflexivity.
Defined.

(** ** The remote calls, equationally *)

Lemma CreateCheckRun_run (owner repo : string)
    (opts : CreateCheckRunOptions.t) (w : World) :
  Checks.CreateCheckRun owner repo opts w =
  match hd None (faults w) with
  | Some f =>
      (Returned (fault_run f, Some (fault_err f)),
       called (CallCreate owner repo opts) w)
  | None =>
      (Returned (Some (newRun (nextID w) opts), None),
       created owner repo opts w)
  end.
Proof.
  unfold Checks.CreateCheckRun, bind, emit, nextFault, ret. simpl.
  destruct (hd None (faults w)); reflexivity.
Qed.

Lemma ListCheckRunsForRef_run (owner repo ref : string)
    (checkName : option string) (w : World) :
  Checks.ListCheckRunsForRef owner repo ref checkName w =
  (Returned
     (match hd None (faults w) with
      | Some f => (None, Some (fault_err f))
      | None =>
          let l := map e_run (filter (matches owner repo ref checkName)
                                (store w)) in
          (Some (ListCheckRunsResults.mk (Some (Z.of_nat (length l))) l), None)
      end),
   called (CallList owner repo ref checkName) w).
Proof.
  unfold Checks.ListCheckRunsForRef, bind, emit, nextFault, ret. simpl.
  destruct (hd None (faults w)); reflexivity.
Qed.

Lemma UpdateCheckRun_run (owner repo : string) (id : Z)
    (opts : UpdateCheckRunOptions.t) (w : World) :
  Checks.UpdateCheckRun owner repo id opts w =
  match hd None (faults w) with
  | Some f =>
      (Returned (fault_run f, Some (fault_err f)),
       called (CallUpdate owner repo id opts) w)
  | None =>
      match find (hasID owner repo id) (store w) with
      | None =>
          (Returned (None, Some notFound),
           called (CallUpdate owner repo id opts) w)
      | Some e =>
          (Returned (Some (applyUpdate opts (e_run e)), None),
           updated owner repo id opts w)
      end
  end.
Proof.
  unfold Checks.UpdateCheckRun, bind, emit, nextFault, ret.
  unfold updated, called, set_store, set_faults, set_trace.
  cbn [store nextID clock faults trace].
  destruct (hd None (faults w)); [reflexivity|].
  cbn [store nextID clock faults trace].
  destruct (find (hasID owner repo id) (store w)); reflexivity.
Qed.

(** ** The check-run operations, equationally *)

Lemma createCheckRun_run (p : PRPlugin.t) (owner repo sha : string)
    (w : World) :
  createCheckRun p owner repo sha w =
  match hd None (faults w) with
  | Some f =>
      (Returned (None, Some (Errorf_w "unable to create check run: "
                               (fault_err f))),
       called (CallCreate owner repo (createOptions p sha)) w)
  | None =>
      (Returned (Some (newRun (nextID w) (createOptions p sha)), None),
       created owner repo (createOptions p sha) w)
  end.
Proof.
  unfold createCheckRun, bind. rewrite CreateCheckRun_run.
  destruct (hd None (faults w)); reflexivity.
Qed.

Lemma getCheckRun_run (p : PRPlugin.t) (owner repo sha : string) (w : World) :
  getCheckRun p owner repo sha w =
  let w1 := called (CallList owner repo sha (Some (PRPlugin.Name p))) w in
  match hd None (faults w) with
  | Some f =>
      (Returned (None, Some (Errorf_w "unable to list check runs: "
                               (fault_err f))), w1)
  | None =>
      match found p owner repo sha w with
      | [] => createCheckRun p owner repo sha w1
      | [r] => (Returned (Some r, None), w1)
      | _ :: _ :: _ =>
          (Returned (None, Some (multipleInstances p owner repo sha)), w1)
      end
  end.
Proof.
  unfold getCheckRun, bind. rewrite ListCheckRunsForRef_run. fold (found p owner repo sha w).
  destruct (hd None (faults w)); [reflexivity|].
  cbv zeta. cbn [ListCheckRunsResults.Total ListCheckRunsResults.CheckRuns].
  destruct (found p owner repo sha w) as [|r [|r' rest]]; try reflexivity.
  cbn [length].
  replace (Z.of_nat (S (S (length rest))) =? 0) with false
    by (symmetry; apply Z.eqb_neq; lia).
  replace (Z.of_nat (S (S (length rest))) =? 1) with false
    by (symmetry; apply Z.eqb_neq; lia).
  replace (Z.of_nat (S (S (length rest))) >? 1) with true
    by (symmetry; apply Z.gtb_lt; lia).
  reflexivity.
Qed.

Lemma finishCheckRun_run (p : PRPlugin.t) (owner repo : string) (id : Z)
    (conclusion summary text : string) (w : World) :
  finishCheckRun p owner repo id conclusion summary text w =
  let opts := finishOptions p (clock w) conclusion summary text in
  match hd None (faults w) with
  | Some f =>
      (Returned (fault_run f,
                 Some (Errorf_w "unable to update check run with results: "
                         (fault_err f))),
       called (CallUpdate owner repo id opts) w)
  | None =>
      match find (hasID owner repo id) (store w) with
      | None =>
          (Returned (None,
                     Some (Errorf_w "unable to update check run with results: "
                             notFound)),
           called (CallUpdate owner repo id opts) w)
      | Some e =>
          (Returned (Some (applyUpdate opts (e_run e)), None),
           updated owner repo id opts w)
      end
  end.
Proof.
  unfold finishCheckRun, bind, time_Now. rewrite UpdateCheckRun_run.
  destruct (hd None (faults w)); [reflexivity|].
  destruct (find (hasID owner repo id) (store w)); reflexivity.
Qed.

Ltac world_simpl :=
  unfold created, updated, called, invoked,
    set_store, set_nextID, set_faults, set_trace in *;
  cbn [store nextID clock faults trace] in *.

Lemma verdict_error (p : PRPlugin.t) (pr : option PullRequest.t) :
  snd (verdict p pr) = snd (PRPlugin.ProcessPR p pr).
Proof.
  unfold verdict. destruct (snd (PRPlugin.ProcessPR p pr)); reflexivity.
Qed.

Lemma processAndSubmit_run (p : PRPlugin.t) (env : ActionsEnv.t)
    (checkRun : option CheckRun.t) (w : World) :
  processAndSubmit p env checkRun w =
  let pr := PullRequestEvent.PullRequest (ActionsEnv.Event env) in
  let owner := ActionsEnv.Owner env in
  let repo := ActionsEnv.Repo env in
  let id := GetID checkRun in
  let opts := submission p env w in
  match hd None (faults w) with
  | Some f =>
      (Returned (fault_run f,
                 Some (Errorf_w "unable to update check run with results: "
                         (fault_err f))),
       called (CallUpdate owner repo id opts) (invoked pr w))
  | None =>
      match find (hasID owner repo id) (store w) with
      | None =>
          (Returned (None,
                     Some (Errorf_w "unable to update check run with results: "
                             notFound)),
           called (CallUpdate owner repo id opts) (invoked pr w))
      | Some e =>
          (Returned (Some (applyUpdate opts (e_run e)),
                     option_map (fun pe => failed (Error pe))
                       (snd (PRPlugin.ProcessPR p pr))),
           updated owner repo id opts (invoked pr w))
      end
  end.
Proof.
  unfold processAndSubmit, bind. rewrite processPR_run.
  rewrite <- verdict_error. unfold submission.
  destruct (verdict p (PullRequestEvent.PullRequest (ActionsEnv.Event env)))
    as [[[conclusion summary] text] procErr].
  rewrite finishCheckRun_run. cbv zeta.
  change (faults (invoked _ w)) with (faults w).
  change (store (invoked _ w)) with (store w).
  change (clock (invoked _ w)) with (clock w).
  destruct (hd None (faults w)); [reflexivity|].
  destruct (find _ (store w)); [|reflexivity].
  destruct procErr; reflexivity.
Qed.

(** ** getCheckRun *)

(** C3: a lookup that the service answers with no match delegates to
    [createCheckRun] and, when the create call is answered too, returns the
    run just stored; with one match it returns that run; with two or more it
    returns the error of plugin.go:142. In the last two cases the world is
    the one left by the list call: the store is untouched and the list call
    is the only call made. *)
Theorem getCheckRun_policy (p : PRPlugin.t) (owner repo sha : string)
    (w : World) :
  served w ->
  let w1 := called (CallList owner repo sha (Some (PRPlugin.Name p))) w in
  (found p owner repo sha w = [] ->
   getCheckRun p owner repo sha w = createCheckRun p owner repo sha w1 /\
   (served w1 ->
    let run := newRun (nextID w) (createOptions p sha) in
    getCheckRun p owner repo sha w
    = (Returned (Some run, None), created owner repo (createOptions p sha) w1)
    /\ store (created owner repo (createOptions p sha) w1)
       = (store w ++ [mkEntry owner repo run])%list)) /\
  (forall r, found p owner repo sha w = [r] ->
   getCheckRun p owner repo sha w = (Returned (Some r, None), w1)) /\
  ((2 <= length (found p owner repo sha w))%nat ->
   getCheckRun p owner repo sha w
   = (Returned (None, Some (multipleInstances p owner repo sha)), w1)) /\
  store w1 = store w /\
  trace w1 = (trace w ++ [CallList owner repo sha (Some (PRPlugin.Name p))])%list.
Proof.
  intros Hs w1. unfold served in Hs.
  pose proof (getCheckRun_run p owner repo sha w) as Hrun.
  cbv zeta in Hrun. rewrite Hs in Hrun. fold w1 in Hrun.
  split; [|split; [|split; [|split; reflexivity]]].
  - intros Hnil. rewrite Hrun, Hnil. split; [reflexivity|].
    intros Hs1 run. unfold served in Hs1.
    rewrite createCheckRun_run, Hs1. split; reflexivity.
  - intros r Hr. rewrite Hrun, Hr. reflexivity.
  - intros Hlen. rewrite Hrun.
    destruct (found p owner repo sha w) as [|r1 [|r2 rest]];
      simpl in Hlen; try lia. reflexivity.
Qed.

Lemma getCheckRun_policy_witness :
  fst (getCheckRun passing "o" "r" "sha2" emptyWorld)
  = Returned (Some (runningRun 1 "sha2"), None) /\
  getCheckRun passing "o" "r" "sha2" (worldOf [passedRun 1 "sha2"] [])
  = (Returned (Some (passedRun 1 "sha2"), None),
     called (CallList "o" "r" "sha2" (Some "PR Type"))
       (worldOf [passedRun 1 "sha2"] [])) /\
  getCheckRun passing "o" "r" "sha2"
    (worldOf [passedRun 1 "sha2"; runningRun 2 "sha2"] [])
  = (Returned (None, Some (multipleInstances passing "o" "r" "sha2")),
     called (CallList "o" "r" "sha2" (Some "PR Type"))
       (worldOf [passedRun 1 "sha2"; runningRun 2 "sha2"] [])).
Proof.
  split; [|split].
  - destruct (getCheckRun_policy passing "o" "r" "sha2" emptyWorld eq_refl)
      as [H0 _].
    destruct (H0 eq_refl) as [_ H1]. destruct (H1 eq_refl) as [H2 _].
    rewrite H2. reflexivity.
  - destruct (getCheckRun_policy passing "o" "r" "sha2"
                (worldOf [passedRun 1 "sha2"] []) eq_refl)
      as [_ [H1 _]].
    exact (H1 (passedRun 1 "sha2") eq_refl).
  - destruct (getCheckRun_policy passing "o" "r" "sha2"
                (worldOf [passedRun 1 "sha2"; runningRun 2 "sha2"] []) eq_refl)
      as [_ [_ [H2 _]]].
    apply H2. simpl. lia.
Defined.

(** ** resetCheckRun *)

(** C9, as stated, fails: the lookup finds a completed run, the update call
    then fails, and the check-run handed back with the error is the nil
    pointer of the failed call, not the run fetched before. *)
Lemma resetCheckRun_failed_update_returns_nil :
  fst (getCheckRun passing "o" "r" "sha2"
         (worldOf [passedRun 1 "sha2"] [None; Some unavailable]))
  = Returned (Some (passedRun 1 "sha2"), None) /\
  fst (resetCheckRun passing "o" "r" "sha2"
         (worldOf [passedRun 1 "sha2"] [None; Some unavailable]))
  = Returned (None,
              Some (wrapError
                      "unable to reset check run: 503 Service Unavailable"
                      (errorString "503 Service Unavailable"))).
Proof. split; reflexivity. Qed.

(** C9, amended: [resetCheckRun] first performs [getCheckRun] and hands its
    failure through; a run whose status is already in-progress is returned
    as it is, in the world left by [getCheckRun] (no update call); otherwise
    one update call asks for the status in-progress, and whatever that call
    hands back is returned: on success the updated run, on failure the
    wrapped error together with the pointer of the failed call, not the
    run fetched before. *)
Theorem resetCheckRun_cases (p : PRPlugin.t) (owner repo sha : string)
    (w w1 : World) (checkRun : option CheckRun.t) (err : option error) :
  getCheckRun p owner repo sha w = (Returned (checkRun, err), w1) ->
  let id := GetID checkRun in
  let call := CallUpdate owner repo id (resetOptions p) in
  (err <> None ->
   resetCheckRun p owner repo sha w = (Returned (checkRun, err), w1)) /\
  (err = None -> Equal Started (GetStatus checkRun) = true ->
   resetCheckRun p owner repo sha w = (Returned (checkRun, None), w1)) /\
  (err = None -> Equal Started (GetStatus checkRun) = false ->
   UpdateCheckRunOptions.Status (resetOptions p) = Some "in-progress" /\
   (forall f, hd None (faults w1) = Some f ->
    resetCheckRun p owner repo sha w
    = (Returned (fault_run f,
                 Some (Errorf_w "unable to reset check run: " (fault_err f))),
       called call w1)) /\
   (served w1 -> find (hasID owner repo id) (store w1) = None ->
    resetCheckRun p owner repo sha w
    = (Returned (None, Some (Errorf_w "unable to reset check run: " notFound)),
       called call w1)) /\
   (forall e, served w1 -> find (hasID owner repo id) (store w1) = Some e ->
    resetCheckRun p owner repo sha w
    = (Returned (Some (applyUpdate (resetOptions p) (e_run e)), None),
       updated owner repo id (resetOptions p) w1) /\
    CheckRun.Status (applyUpdate (resetOptions p) (e_run e))
    = Some "in-progress")).
Proof.
  intros Hget id call.
  split; [|split].
  - intros Herr. unfold resetCheckRun, bind. rewrite Hget.
    destruct err; [reflexivity|congruence].
  - intros -> Hst. unfold resetCheckRun, bind. rewrite Hget, Hst. reflexivity.
  - intros -> Hst.
    assert (Hreset : resetCheckRun p owner repo sha w =
              match Checks.UpdateCheckRun owner repo id (resetOptions p) w1 with
              | (Returned (c, Some e), w2) =>
                  (Returned (c, Some (Errorf_w "unable to reset check run: " e)),
                   w2)
              | (Returned (c, None), w2) => (Returned (c, None), w2)
              | (Panicked, w2) => (Panicked, w2)
              end).
    { unfold resetCheckRun, bind. rewrite Hget, Hst. fold id.
      destruct (Checks.UpdateCheckRun owner repo id (resetOptions p) w1)
        as [[[c [e|]]|] w2]; reflexivity. }
    rewrite UpdateCheckRun_run in Hreset. fold call in Hreset.
    split; [reflexivity|]. split; [|split].
    + intros f Hf. rewrite Hreset, Hf. reflexivity.
    + intros Hs Hfind. unfold served in Hs.
      rewrite Hreset, Hs, Hfind. reflexivity.
    + intros e Hs Hfind. unfold served in Hs.
      rewrite Hreset, Hs, Hfind. split; reflexivity.
Qed.

Lemma resetCheckRun_cases_witness :
  resetCheckRun passing "o" "r" "sha2"
    (worldOf [passedRun 1 "sha2"] [None; Some unavailable])
  = (Returned (None,
               Some (Errorf_w "unable to reset check run: "
                       (errorString "503 Service Unavailable"))),
     called (CallUpdate "o" "r" 1 (resetOptions passing))
       (called (CallList "o" "r" "sha2" (Some "PR Type"))
          (worldOf [passedRun 1 "sha2"] [None; Some unavailable]))) /\
  resetCheckRun passing "o" "r" "sha2" (worldOf [runningRun 1 "sha2"] [])
  = (Returned (Some (runningRun 1 "sha2"), None),
     called (CallList "o" "r" "sha2" (Some "PR Type"))
       (worldOf [runningRun 1 "sha2"] [])).
Proof.
  split.
  - destruct (resetCheckRun_cases passing "o" "r" "sha2"
                (worldOf [passedRun 1 "sha2"] [None; Some unavailable])
                (called (CallList "o" "r" "sha2" (Some "PR Type"))
                   (worldOf [passedRun 1 "sha2"] [None; Some unavailable]))
                (Some (passedRun 1 "sha2")) None eq_refl)
      as [_ [_ H3]].
    destruct (H3 eq_refl eq_refl) as [_ [Hfail _]].
    exact (Hfail unavailable eq_refl).
  - destruct (resetCheckRun_cases passing "o" "r" "sha2"
                (worldOf [runningRun 1 "sha2"] [])
                (called (CallList "o" "r" "sha2" (Some "PR Type"))
                   (worldOf [runningRun 1 "sha2"] []))
                (Some (runningRun 1 "sha2")) None eq_refl)
      as [_ [H2 _]].
    exact (H2 eq_refl eq_refl).
Defined.

(** ** processAndSubmit *)

(** [processAndSubmit] never panics, and always makes the same two steps:
    the verification function is invoked, then one update call carries the
    verdict to the run. *)
Lemma processAndSubmit_total (p : PRPlugin.t) (env : ActionsEnv.t)
    (checkRun : option CheckRun.t) (w : World) :
  exists (res : option CheckRun.t * option error) (w' : World),
    processAndSubmit p env checkRun w = (Returned res, w') /\
    trace w' =
    (trace w ++
       [CallProcessPR (PullRequestEvent.PullRequest (ActionsEnv.Event env));
        CallUpdate (ActionsEnv.Owner env) (ActionsEnv.Repo env)
          (GetID checkRun) (submission p env w)])%list.
Proof.
  rewrite processAndSubmit_run. cbv zeta.
  destruct (hd None (faults w)) as [f|].
  - eexists; eexists; split; [reflexivity|].
    world_simpl. rewrite <- app_assoc. reflexivity.
  - destruct (find _ (store w)) as [e|];
      (eexists; eexists; split; [reflexivity|]);
      world_simpl; rewrite <- app_assoc; reflexivity.
Qed.



(** ** onReopen *)




(** ** entrypoint and onOpen *)



(** ** Worlds reached without verification *)

Lemma quietly_refl (w : World) : quietly w w.
Proof. split; [reflexivity|]. exists []. rewrite app_nil_r. split; reflexivity. Qed.

Lemma quietly_trans (w1 w2 w3 : World) :
  quietly w1 w2 -> quietly w2 w3 -> quietly w1 w3.
Proof.
  intros [Hc1 [d1 [Ht1 Hq1]]] [Hc2 [d2 [Ht2 Hq2]]].
  split; [congruence|].
  exists (d1 ++ d2)%list. split.
  - rewrite Ht2, Ht1, app_assoc. reflexivity.
  - rewrite existsb_app, Hq1, Hq2. reflexivity.
Qed.

Lemma quietly_called (c : Call) (w : World) :
  isVerification c = false -> quietly w (called c w).
Proof.
  intros Hc. split; [reflexivity|].
  exists [c]. split; [reflexivity|]. simpl. rewrite Hc. reflexivity.
Qed.

Lemma quietly_created (owner repo : string) (opts : CreateCheckRunOptions.t)
    (w : World) :
  quietly w (created owner repo opts w).
Proof.
  split; [reflexivity|].
  exists [CallCreate owner repo opts]. split; reflexivity.
Qed.

Lemma quietly_updated (owner repo : string) (id : Z)
    (opts : UpdateCheckRunOptions.t) (w : World) :
  quietly w (updated owner repo id opts w).
Proof.
  split; [reflexivity|].
  exists [CallUpdate owner repo id opts]. split; reflexivity.
Qed.

Create HintDb quiet.
#[local] Hint Resolve quietly_refl quietly_called quietly_created
  quietly_updated : quiet.

Lemma createCheckRun_quietly (p : PRPlugin.t) (owner repo sha : string)
    (w : World) :
  quietly w (snd (createCheckRun p owner repo sha w)).
Proof.
  rewrite createCheckRun_run.
  destruct (hd None (faults w)); simpl; auto with quiet.
Qed.

Lemma getCheckRun_quietly (p : PRPlugin.t) (owner repo sha : string)
    (w : World) :
  quietly w (snd (getCheckRun p owner repo sha w)).
Proof.
  rewrite getCheckRun_run. cbv zeta.
  destruct (hd None (faults w)); [simpl; auto with quiet|].
  destruct (found p owner repo sha w) as [|r [|r' rest]];
    [|simpl; auto with quiet..].
  eapply quietly_trans; [|apply createCheckRun_quietly].
  auto with quiet.
Qed.

Lemma resetCheckRun_quietly (p : PRPlugin.t) (owner repo sha : string)
    (w : World) :
  quietly w (snd (resetCheckRun p owner repo sha w)).
Proof.
  pose proof (getCheckRun_quietly p owner repo sha w) as Hq.
  unfold resetCheckRun, bind.
  destruct (getCheckRun p owner repo sha w) as [[[c [e|]]|] w1];
    simpl in Hq; [exact Hq| |exact Hq].
  destruct (Equal Started (GetStatus c)); [exact Hq|].
  rewrite UpdateCheckRun_run.
  destruct (hd None (faults w1)).
  - simpl. eapply quietly_trans; [exact Hq|]. auto with quiet.
  - destruct (find _ (store w1)); simpl;
      (eapply quietly_trans; [exact Hq|]); auto with quiet.
Qed.

Lemma duplicateCheckRun_quietly (p : PRPlugin.t) (owner repo sha : string)
    (c : option CheckRun.t) (w : World) :
  quietly w (snd (duplicateCheckRun p owner repo sha c w)).
Proof.
  unfold duplicateCheckRun. destruct c as [src|]; [|apply quietly_refl].
  unfold bind. rewrite CreateCheckRun_run.
  destruct (hd None (faults w)); simpl; auto with quiet.
Qed.

Lemma failureOf_world (c : option CheckRun.t) (w : World) :
  snd (failureOf c w) = w.
Proof.
  unfold failureOf. destruct c as [r|]; [|reflexivity].
  destruct (CheckRun.Conclusion r) as [s|]; [|reflexivity].
  destruct (String.eqb s "failure"); [|reflexivity].
  destruct (CheckRun.Output r) as [o|]; [|reflexivity].
  destruct (CheckRunOutput.Summary o); reflexivity.
Qed.

(** ** The shape of a transition *)

(** Each handler either ends without having invoked the verification
    function, or ends with [processAndSubmit] after remote calls only. *)
Lemma onOpen_shape (p : PRPlugin.t) (env : ActionsEnv.t) (w : World) :
  quietly w (snd (onOpen p env w)) \/
  exists (w0 : World) (c : option CheckRun.t),
    quietly w w0 /\ onOpen p env w = submitted p env c w0.
Proof.
  pose proof (createCheckRun_quietly p (ActionsEnv.Owner env)
                (ActionsEnv.Repo env) (headSHAOf env) w) as Hq.
  unfold onOpen, bind.
  destruct (createCheckRun _ _ _ _ w) as [[[c [e|]]|] w1]; simpl in Hq.
  - left. exact Hq.
  - right. exists w1, c. split; [exact Hq|reflexivity].
  - left. exact Hq.
Qed.

Lemma onReopen_shape (p : PRPlugin.t) (env : ActionsEnv.t) (w : World) :
  quietly w (snd (onReopen p env w)) \/
  exists (w0 : World) (c : option CheckRun.t),
    quietly w w0 /\ onReopen p env w = submitted p env c w0.
Proof.
  pose proof (getCheckRun_quietly p (ActionsEnv.Owner env)
                (ActionsEnv.Repo env) (headSHAOf env) w) as Hq.
  unfold onReopen, bind.
  destruct (getCheckRun _ _ _ _ w) as [[[c [e|]]|] w1]; simpl in Hq.
  - left. exact Hq.
  - destruct (Equal Finished (GetStatus c)); cbn [negb].
    + left. rewrite failureOf_world. exact Hq.
    + right. exists w1, c. split; [exact Hq|reflexivity].
  - left. exact Hq.
Qed.

Lemma onEdit_shape (p : PRPlugin.t) (env : ActionsEnv.t) (w : World) :
  quietly w (snd (onEdit p env w)) \/
  exists (w0 : World) (c : option CheckRun.t),
    quietly w w0 /\ onEdit p env w = submitted p env c w0.
Proof.
  pose proof (resetCheckRun_quietly p (ActionsEnv.Owner env)
                (ActionsEnv.Repo env) (headSHAOf env) w) as Hq.
  unfold onEdit, bind.
  destruct (resetCheckRun _ _ _ _ w) as [[[c [e|]]|] w1]; simpl in Hq.
  - left. exact Hq.
  - right. exists w1, c. split; [exact Hq|reflexivity].
  - left. exact Hq.
Qed.

Lemma onSync_shape (p : PRPlugin.t) (env : ActionsEnv.t) (w : World)
    (e : error) :
  snd (PRPlugin.ProcessPR p
         (PullRequestEvent.PullRequest (ActionsEnv.Event env))) = Some e ->
  quietly w (snd (onSync p env w)) \/
  exists (w0 : World) (c : option CheckRun.t),
    quietly w w0 /\ onSync p env w = submitted p env c w0.
Proof.
  intros Hf.
  pose proof (getCheckRun_quietly p (ActionsEnv.Owner env)
                (ActionsEnv.Repo env) (GetBefore (ActionsEnv.Event env)) w)
    as Hq.
  unfold onSync, bind.
  destruct (getCheckRun _ _ _ _ w) as [[[c [e0|]]|] w1]; simpl in Hq.
  - left. exact Hq.
  - cbv zeta. destruct (Equal Finished (GetStatus c)); cbn [negb].
    + left.
      pose proof (duplicateCheckRun_quietly p (ActionsEnv.Owner env)
                    (ActionsEnv.Repo env) (GetAfter (ActionsEnv.Event env))
                    c w1) as Hd.
      destruct (duplicateCheckRun _ _ _ _ c w1) as [[[c2 [e2|]]|] w2];
        simpl in Hd; try rewrite failureOf_world; simpl;
        eapply quietly_trans; eauto.
    + right. exists w1, c. split; [exact Hq|].
      unfold submitted, bind. rewrite processAndSubmit_run. cbv zeta.
      rewrite Hf.
      destruct (hd None (faults w1)); [reflexivity|].
      destruct (find _ (store w1)); reflexivity.
  - left. exact Hq.
Qed.

Lemma entrypoint_shape (p : PRPlugin.t) (env : ActionsEnv.t) (w : World)
    (e : error) :
  snd (PRPlugin.ProcessPR p
         (PullRequestEvent.PullRequest (ActionsEnv.Event env))) = Some e ->
  quietly w (snd (entrypoint p env w)) \/
  exists (w0 : World) (c : option CheckRun.t),
    quietly w w0 /\ entrypoint p env w = submitted p env c w0.
Proof.
  intros Hf. unfold entrypoint.
  destruct (String.eqb _ "open"); [apply onOpen_shape|].
  destruct (String.eqb _ "reopen"); [apply onReopen_shape|].
  destruct (String.eqb _ "edit"); [apply onEdit_shape|].
  destruct (String.eqb _ "synchronize"); [apply (onSync_shape _ _ _ e Hf)|].
  left. apply quietly_refl.
Qed.

(** ** A failed verification *)

Lemma getCheckRun_returns (p : PRPlugin.t) (owner repo sha : string)
    (w : World) :
  (exists (e : error) (w1 : World),
     getCheckRun p owner repo sha w = (Returned (None, Some e), w1)) \/
  (exists (r : CheckRun.t) (w1 : World),
     getCheckRun p owner repo sha w = (Returned (Some r, None), w1)).
Proof.
  rewrite getCheckRun_run. cbv zeta.
  destruct (hd None (faults w)); [left; eauto|].
  destruct (found p owner repo sha w) as [|r [|r' rest]];
    [|right; eauto|left; eauto].
  rewrite createCheckRun_run.
  destruct (hd None (faults _)); [left; eauto|right; eauto].
Qed.

Lemma getCheckRun_stored (p : PRPlugin.t) (owner repo sha : string)
    (w w1 : World) (r : CheckRun.t) :
  getCheckRun p owner repo sha w = (Returned (Some r, None), w1) ->
  exists en : Entry,
    In en (store w1) /\ e_run en = r /\ inRepo owner repo en = true.
Proof.
  rewrite getCheckRun_run. cbv zeta.
  destruct (hd None (faults w)); [discriminate|].
  destruct (found p owner repo sha w) as [|r1 [|r2 rest]] eqn:Hf.
  - rewrite createCheckRun_run.
    destruct (hd None (faults _)); [discriminate|].
    intros Heq. injection Heq as Hr Hw1. subst r w1.
    exists (mkEntry owner repo (newRun (nextID w) (createOptions p sha))).
    split; [|split; [reflexivity|]].
    + world_simpl. apply in_or_app. right. left. reflexivity.
    + unfold inRepo. simpl. rewrite !String.eqb_refl. reflexivity.
  - intros Heq. injection Heq as Hr Hw1. subst r1 w1.
    assert (Hin : In r (found p owner repo sha w))
      by (rewrite Hf; left; reflexivity).
    unfold found in Hin. apply in_map_iff in Hin.
    destruct Hin as [en [Hrun Hin]]. apply filter_In in Hin.
    destruct Hin as [Hin Hm]. exists en.
    split; [exact Hin|]. split; [exact Hrun|].
    unfold matches in Hm. apply andb_prop in Hm. destruct Hm as [Hm _].
    apply andb_prop in Hm. exact (proj1 Hm).
  - discriminate.
Qed.

Lemma duplicate_tail_quietly (p : PRPlugin.t) (owner repo sha : string)
    (c : option CheckRun.t) (w : World) :
  quietly w
    (snd (('(c', err) <- duplicateCheckRun p owner repo sha c ;;
           match err with
           | Some _ => ret err
           | None => failureOf c'
           end) w)).
Proof.
  pose proof (duplicateCheckRun_quietly p owner repo sha c w) as Hd.
  unfold bind at 1.
  destruct (duplicateCheckRun p owner repo sha c w) as [[[c2 [e2|]]|] w2];
    simpl in Hd; try rewrite failureOf_world; exact Hd.
Qed.


Lemma submission_clock (p : PRPlugin.t) (env : ActionsEnv.t) (w w0 : World) :
  clock w0 = clock w -> submission p env w0 = submission p env w.
Proof. intros Hc. unfold submission. rewrite Hc. reflexivity. Qed.

Lemma submission_failure (p : PRPlugin.t) (env : ActionsEnv.t) (w : World)
    (e : error) :
  snd (PRPlugin.ProcessPR p
         (PullRequestEvent.PullRequest (ActionsEnv.Event env))) = Some e ->
  UpdateCheckRunOptions.Conclusion (submission p env w) = Some "failure" /\
  exists o : CheckRunOutput.t,
    UpdateCheckRunOptions.Output (submission p env w) = Some o /\
    CheckRunOutput.Summary o = Some (Error e).
Proof.
  intros Hf. unfold submission, verdict. rewrite Hf. split; [reflexivity|].
  eexists. split; reflexivity.
Qed.

(** An answered update call leaves a stored run that carries the update. *)
Lemma updated_entry (owner repo : string) (id : Z)
    (opts : UpdateCheckRunOptions.t) (w : World) (en : Entry) :
  find (hasID owner repo id) (store w) = Some en ->
  In (mkEntry (e_owner en) (e_repo en) (applyUpdate opts (e_run en)))
    (store (updated owner repo id opts w)) /\
  hasID owner repo id
    (mkEntry (e_owner en) (e_repo en) (applyUpdate opts (e_run en))) = true.
Proof.
  intros Hfind. apply find_some in Hfind. destruct Hfind as [Hin Hid].
  split.
  - world_simpl.
    replace (mkEntry (e_owner en) (e_repo en) (applyUpdate opts (e_run en)))
      with (updateEntry owner repo id opts en)
      by (unfold updateEntry; rewrite Hid; reflexivity).
    apply in_map. exact Hin.
  - exact Hid.
Qed.

Lemma submitted_failure (p : PRPlugin.t) (env : ActionsEnv.t)
    (c : option CheckRun.t) (w : World) (e : error) :
  snd (PRPlugin.ProcessPR p
         (PullRequestEvent.PullRequest (ActionsEnv.Event env))) = Some e ->
  exists (err : error) (w2 : World),
    submitted p env c w = (Returned (Some err), w2) /\
    trace w2 =
    (trace w ++
       [CallProcessPR (PullRequestEvent.PullRequest (ActionsEnv.Event env));
        CallUpdate (ActionsEnv.Owner env) (ActionsEnv.Repo env) (GetID c)
          (submission p env w)])%list /\
    ((err = failed (Error e) /\
      exists en : Entry,
        In en (store w2) /\
        hasID (ActionsEnv.Owner env) (ActionsEnv.Repo env) (GetID c) en = true /\
        CheckRun.Conclusion (e_run en) = Some "failure" /\
        CheckRun.Status (e_run en) = Some "completed")
     \/
     (exists cause : error,
        err = Errorf_w "unable to update check run with results: " cause)).
Proof.
  intros Hf.
  destruct (submission_failure p env w e Hf) as [Hconc _].
  unfold submitted, bind. rewrite processAndSubmit_run. cbv zeta. rewrite Hf.
  destruct (hd None (faults w)) as [f|].
  - eexists; eexists. split; [reflexivity|]. split.
    + world_simpl. rewrite <- app_assoc. reflexivity.
    + right. eexists. reflexivity.
  - destruct (find _ (store w)) as [en|] eqn:Hfind.
    + eexists; eexists. split; [reflexivity|]. split.
      * world_simpl. rewrite <- app_assoc. reflexivity.
      * left. split; [reflexivity|].
        destruct (updated_entry (ActionsEnv.Owner env) (ActionsEnv.Repo env)
                    (GetID c) (submission p env w)
                    (invoked (PullRequestEvent.PullRequest
                                (ActionsEnv.Event env)) w) en Hfind)
          as [Hin Hid].
        eexists. split; [exact Hin|]. split; [exact Hid|].
        cbn [e_run applyUpdate CheckRun.Conclusion CheckRun.Status].
        rewrite Hconc. split; reflexivity.
    + eexists; eexists. split; [reflexivity|]. split.
      * world_simpl. rewrite <- app_assoc. reflexivity.
      * right. eexists. reflexivity.
Qed.

(** *** The run that a transition verifies *)

Lemma createCheckRun_stored (p : PRPlugin.t) (owner repo sha : string)
    (w w0 : World) (c : option CheckRun.t) :
  createCheckRun p owner repo sha w = (Returned (c, None), w0) ->
  exists (r : CheckRun.t) (en : Entry),
    c = Some r /\ In en (store w0) /\ e_run en = r /\
    inRepo owner repo en = true.
Proof.
  rewrite createCheckRun_run.
  destruct (hd None (faults w)); [discriminate|].
  intros Heq. injection Heq as Hc Hw0. subst c w0.
  exists (newRun (nextID w) (createOptions p sha)),
    (mkEntry owner repo (newRun (nextID w) (createOptions p sha))).
  split; [reflexivity|]. split; [|split; [reflexivity|]].
  - world_simpl. apply in_or_app. right. left. reflexivity.
  - unfold inRepo. simpl. rewrite !String.eqb_refl. reflexivity.
Qed.

Lemma getCheckRun_fetched (p : PRPlugin.t) (owner repo sha : string)
    (w w0 : World) (c : option CheckRun.t) :
  getCheckRun p owner repo sha w = (Returned (c, None), w0) ->
  exists (r : CheckRun.t) (en : Entry),
    c = Some r /\ In en (store w0) /\ e_run en = r /\
    inRepo owner repo en = true.
Proof.
  intros Hget.
  destruct (getCheckRun_returns p owner repo sha w)
    as [[e [w1 H]]|[r [w1 H]]]; rewrite H in Hget; [discriminate|].
  injection Hget as Hc Hw0. subst c w0.
  destruct (getCheckRun_stored _ _ _ _ _ _ _ H) as [en Hen].
  exists r, en. split; [reflexivity|exact Hen].
Qed.

Lemma resetCheckRun_stored (p : PRPlugin.t) (owner repo sha : string)
    (w w0 : World) (c : option CheckRun.t) :
  resetCheckRun p owner repo sha w = (Returned (c, None), w0) ->
  exists (r : CheckRun.t) (en : Entry),
    c = Some r /\ In en (store w0) /\ e_run en = r /\
    inRepo owner repo en = true.
Proof.
  unfold resetCheckRun, bind.
  destruct (getCheckRun p owner repo sha w) as [[[c1 [e|]]|] w1] eqn:Hget;
    [discriminate| |discriminate].
  destruct (Equal Started (GetStatus c1)).
  - intros Heq. injection Heq as Hc Hw0. subst c1 w1.
    exact (getCheckRun_fetched _ _ _ _ _ _ _ Hget).
  - rewrite UpdateCheckRun_run.
    destruct (hd None (faults w1)); [discriminate|].
    destruct (find _ (store w1)) as [en1|] eqn:Hfind; [|discriminate].
    intros Heq. injection Heq as Hc Hw0. subst c w0.
    destruct (updated_entry owner repo (GetID c1) (resetOptions p) w1 en1
                Hfind) as [Hin Hid].
    eexists; eexists. split; [reflexivity|]. split; [exact Hin|].
    split; [reflexivity|].
    unfold hasID in Hid. apply andb_prop in Hid. exact (proj1 Hid).
Qed.

Lemma acquires_stored (p : PRPlugin.t) (env : ActionsEnv.t) (w w0 : World)
    (c : option CheckRun.t) :
  acquires p env w c w0 ->
  exists (r : CheckRun.t) (en : Entry),
    c = Some r /\ In en (store w0) /\ e_run en = r /\
    inRepo (ActionsEnv.Owner env) (ActionsEnv.Repo env) en = true.
Proof.
  intros [[_ Hc]|[[_ [Hc _]]|[[_ Hc]|[_ [Hc _]]]]].
  - exact (createCheckRun_stored _ _ _ _ _ _ _ Hc).
  - exact (getCheckRun_fetched _ _ _ _ _ _ _ Hc).
  - exact (resetCheckRun_stored _ _ _ _ _ _ _ Hc).
  - exact (getCheckRun_fetched _ _ _ _ _ _ _ Hc).
Qed.

Lemma acquires_quietly (p : PRPlugin.t) (env : ActionsEnv.t) (w w0 : World)
    (c : option CheckRun.t) :
  acquires p env w c w0 -> quietly w w0.
Proof.
  intros [[_ Hc]|[[_ [Hc _]]|[[_ Hc]|[_ [Hc _]]]]].
  - pose proof (createCheckRun_quietly p (ActionsEnv.Owner env)
                  (ActionsEnv.Repo env) (headSHAOf env) w) as Hq.
    rewrite Hc in Hq. exact Hq.
  - pose proof (getCheckRun_quietly p (ActionsEnv.Owner env)
                  (ActionsEnv.Repo env) (headSHAOf env) w) as Hq.
    rewrite Hc in Hq. exact Hq.
  - pose proof (resetCheckRun_quietly p (ActionsEnv.Owner env)
                  (ActionsEnv.Repo env) (headSHAOf env) w) as Hq.
    rewrite Hc in Hq. exact Hq.
  - pose proof (getCheckRun_quietly p (ActionsEnv.Owner env)
                  (ActionsEnv.Repo env) (GetBefore (ActionsEnv.Event env)) w)
      as Hq.
    rewrite Hc in Hq. exact Hq.
Qed.

(** A transition that has not obtained a run to verify ends without having
    invoked the verification function. *)
Lemma entrypoint_acquires_or_quiet (p : PRPlugin.t) (env : ActionsEnv.t)
    (w : World) :
  (exists (c : option CheckRun.t) (w0 : World), acquires p env w c w0) \/
  quietly w (snd (entrypoint p env w)).
Proof.
  unfold entrypoint, acquires. cbv zeta.
  destruct (String.eqb (GetAction (ActionsEnv.Event env)) "open") eqn:Ho.
  { apply String.eqb_eq in Ho.
    pose proof (createCheckRun_quietly p (ActionsEnv.Owner env)
                  (ActionsEnv.Repo env) (headSHAOf env) w) as Hq.
    unfold onOpen, bind.
    destruct (createCheckRun _ _ _ _ w) as [[[c [e|]]|] w0]; simpl in Hq.
    - right. exact Hq.
    - left. exists c, w0. left. split; [exact Ho|reflexivity].
    - right. exact Hq. }
  destruct (String.eqb (GetAction (ActionsEnv.Event env)) "reopen") eqn:Hr.
  { apply String.eqb_eq in Hr.
    pose proof (getCheckRun_quietly p (ActionsEnv.Owner env)
                  (ActionsEnv.Repo env) (headSHAOf env) w) as Hq.
    unfold onReopen, bind.
    destruct (getCheckRun _ _ _ (headSHAOf env) w) as [[[c [e|]]|] w0];
      simpl in Hq.
    - right. exact Hq.
    - destruct (Equal Finished (GetStatus c)) eqn:Hfin; cbn [negb].
      + right. rewrite failureOf_world. exact Hq.
      + left. exists c, w0. right. left.
        split; [exact Hr|]. split; [reflexivity|exact Hfin].
    - right. exact Hq. }
  destruct (String.eqb (GetAction (ActionsEnv.Event env)) "edit") eqn:He.
  { apply String.eqb_eq in He.
    pose proof (resetCheckRun_quietly p (ActionsEnv.Owner env)
                  (ActionsEnv.Repo env) (headSHAOf env) w) as Hq.
    unfold onEdit, bind.
    destruct (resetCheckRun _ _ _ _ w) as [[[c [e|]]|] w0]; simpl in Hq.
    - right. exact Hq.
    - left. exists c, w0. right. right. left.
      split; [exact He|reflexivity].
    - right. exact Hq. }
  destruct (String.eqb (GetAction (ActionsEnv.Event env)) "synchronize")
    eqn:Hsy.
  { apply String.eqb_eq in Hsy.
    pose proof (getCheckRun_quietly p (ActionsEnv.Owner env)
                  (ActionsEnv.Repo env) (GetBefore (ActionsEnv.Event env)) w)
      as Hq.
    unfold onSync, bind at 1.
    destruct (getCheckRun _ _ _ (GetBefore (ActionsEnv.Event env)) w)
      as [[[c [e|]]|] w0]; simpl in Hq.
    - right. exact Hq.
    - cbv zeta. destruct (Equal Finished (GetStatus c)) eqn:Hfin; cbn [negb].
      + right. eapply quietly_trans; [exact Hq|].
        apply duplicate_tail_quietly.
      + left. exists c, w0. right. right. right.
        split; [exact Hsy|]. split; [reflexivity|exact Hfin].
    - right. exact Hq. }
  right. apply quietly_refl.
Qed.

(** Once the run is obtained and the verification is bound to fail, the
    rest of the transition is [processAndSubmit] on that run. *)
Lemma acquires_submits (p : PRPlugin.t) (env : ActionsEnv.t) (w w0 : World)
    (c : option CheckRun.t) (e : error) :
  snd (PRPlugin.ProcessPR p
         (PullRequestEvent.PullRequest (ActionsEnv.Event env))) = Some e ->
  acquires p env w c w0 ->
  entrypoint p env w = submitted p env c w0.
Proof.
  intros Hf [[Ha Hc]|[[Ha [Hc Hfin]]|[[Ha Hc]|[Ha [Hc Hfin]]]]].
  - assert (Hent : entrypoint p env w = onOpen p env w)
      by (unfold entrypoint; rewrite Ha; reflexivity).
    rewrite Hent. unfold onOpen, bind at 1. rewrite Hc. reflexivity.
  - assert (Hent : entrypoint p env w = onReopen p env w)
      by (unfold entrypoint; rewrite Ha; reflexivity).
    rewrite Hent. unfold onReopen, bind at 1. rewrite Hc, Hfin. reflexivity.
  - assert (Hent : entrypoint p env w = onEdit p env w)
      by (unfold entrypoint; rewrite Ha; reflexivity).
    rewrite Hent. unfold onEdit, bind at 1. rewrite Hc. reflexivity.
  - assert (Hent : entrypoint p env w = onSync p env w)
      by (unfold entrypoint; rewrite Ha; reflexivity).
    rewrite Hent. unfold onSync, bind at 1. rewrite Hc. cbv zeta.
    rewrite Hfin. cbn [negb].
    unfold submitted, bind. rewrite processAndSubmit_run. cbv zeta.
    rewrite Hf.
    destruct (hd None (faults w0)); [reflexivity|].
    destruct (find _ (store w0)); reflexivity.
Qed.

(** C4: in every transition that invokes the verification function and gets
    an error from it, the handler had obtained a run [c] (created, reset, or
    fetched and found not completed) by remote calls only; the last two
    steps of the transition are that invocation and the update call that
    carries the conclusion failure to the id of that very run; only then
    does the top-level handler return, and what it returns is a non-nil
    error. If the service answers the update call, every stored run with
    that id is updated, the run [c] among them when it has an id, and the
    error is "failed: <message>"; if the update call fails, the error wraps
    the failure of the call; a run with that id is missing from the store
    only when [c] has no id. *)
Theorem verification_failure_recorded_then_returned (p : PRPlugin.t)
    (env : ActionsEnv.t) (w : World) (e : error) (delta : list Call) :
  snd (PRPlugin.ProcessPR p
         (PullRequestEvent.PullRequest (ActionsEnv.Event env))) = Some e ->
  trace (snd (entrypoint p env w)) = (trace w ++ delta)%list ->
  existsb isVerification delta = true ->
  let owner := ActionsEnv.Owner env in
  let repo := ActionsEnv.Repo env in
  let opts := submission p env w in
  exists (c : option CheckRun.t) (w0 : World) (before : list Call),
    acquires p env w c w0 /\
    trace w0 = (trace w ++ before)%list /\
    existsb isVerification before = false /\
    delta =
    (before ++
       [CallProcessPR (PullRequestEvent.PullRequest (ActionsEnv.Event env));
        CallUpdate owner repo (GetID c) opts])%list /\
    UpdateCheckRunOptions.Conclusion opts = Some "failure" /\
    (forall r : CheckRun.t,
       CheckRun.Conclusion (applyUpdate opts r) = Some "failure" /\
       CheckRun.Status (applyUpdate opts r) = Some "completed") /\
    (exists (r : CheckRun.t) (en : Entry),
       c = Some r /\ In en (store w0) /\ e_run en = r /\
       inRepo owner repo en = true /\
       (CheckRun.ID r <> None -> hasID owner repo (GetID c) en = true)) /\
    match hd None (faults w0) with
    | Some f =>
        fst (entrypoint p env w)
        = Returned (Some (Errorf_w "unable to update check run with results: "
                            (fault_err f))) /\
        store (snd (entrypoint p env w)) = store w0
    | None =>
        match find (hasID owner repo (GetID c)) (store w0) with
        | Some _ =>
            fst (entrypoint p env w) = Returned (Some (failed (Error e))) /\
            store (snd (entrypoint p env w))
            = map (updateEntry owner repo (GetID c) opts) (store w0)
        | None =>
            fst (entrypoint p env w)
            = Returned (Some (Errorf_w
                                "unable to update check run with results: "
                                notFound)) /\
            store (snd (entrypoint p env w)) = store w0 /\
            forall r : CheckRun.t, c = Some r -> CheckRun.ID r = None
        end
    end.
Proof.
  intros Hf Htrace Hran owner repo opts. subst opts.
  destruct (entrypoint_acquires_or_quiet p env w)
    as [[c [w0 Hacq]] | [_ [d [Hd Hq]]]].
  2:{ rewrite Htrace in Hd. apply app_inv_head in Hd. subst d. congruence. }
  destruct (acquires_quietly p env w w0 c Hacq) as [Hclock [before [Hb Hqb]]].
  destruct (acquires_stored p env w w0 c Hacq) as [r [en [Hc [Hin [Hrun Hrepo]]]]].
  pose proof (acquires_submits p env w w0 c e Hf Hacq) as Hsub.
  assert (Hopts : submission p env w0 = submission p env w)
    by (apply submission_clock; exact Hclock).
  assert (Hhas : CheckRun.ID r <> None ->
                 hasID owner repo (GetID c) en = true).
  { intros Hid. subst c. unfold hasID. fold owner repo in Hrepo.
    rewrite Hrepo, Hrun. simpl.
    destruct (CheckRun.ID r) as [i|]; [|congruence].
    simpl. apply Z.eqb_refl. }
  exists c, w0, before.
  split; [exact Hacq|]. split; [exact Hb|]. split; [exact Hqb|].
  assert (Hfinal : trace (snd (entrypoint p env w))
                   = (trace w0 ++
                        [CallProcessPR
                           (PullRequestEvent.PullRequest (ActionsEnv.Event env));
                         CallUpdate owner repo (GetID c)
                           (submission p env w)])%list).
  { rewrite Hsub. unfold submitted, bind.
    destruct (processAndSubmit_total p env c w0) as [[c' err] [w2 [Hps Htr]]].
    rewrite Hps. cbv beta iota delta [ret snd]. rewrite Htr, Hopts.
    reflexivity. }
  split.
  { rewrite Hfinal, Hb, <- app_assoc in Htrace.
    apply app_inv_head in Htrace. symmetry. exact Htrace. }
  split; [exact (proj1 (submission_failure p env w e Hf))|].
  split.
  { intros r'. cbn [applyUpdate CheckRun.Conclusion CheckRun.Status].
    rewrite (proj1 (submission_failure p env w e Hf)). split; reflexivity. }
  split.
  { exists r, en. fold owner repo in Hrepo. auto. }
  rewrite Hsub. unfold submitted, bind. rewrite processAndSubmit_run.
  cbv zeta. rewrite Hf, Hopts. fold owner repo.
  destruct (hd None (faults w0)) as [f|]; [split; reflexivity|].
  destruct (find (hasID owner repo (GetID c)) (store w0)) as [en'|] eqn:Hfind.
  - split; reflexivity.
  - split; [reflexivity|]. split; [reflexivity|].
    intros r' Hr'. rewrite Hc in Hr'. injection Hr' as Hr'. subst r'.
    destruct (CheckRun.ID r) as [i|] eqn:Hid; [|reflexivity].
    assert (Hen : hasID owner repo (GetID c) en = true)
      by (apply Hhas; congruence).
    rewrite (find_none _ _ Hfind en Hin) in Hen. discriminate.
Qed.

Lemma verification_failure_recorded_then_returned_witness :
  exists (c : option CheckRun.t) (w0 : World) (before : list Call),
    acquires failing (envOf "open" "no prefix") emptyWorld c w0 /\
    [CallCreate "o" "r" (createOptions failing "sha2");
     CallProcessPR (prOf "no prefix" "sha2");
     CallUpdate "o" "r" 1
       (submission failing (envOf "open" "no prefix") emptyWorld)]
    = (before ++
         [CallProcessPR (prOf "no prefix" "sha2");
          CallUpdate "o" "r" (GetID c)
            (submission failing (envOf "open" "no prefix") emptyWorld)])%list.
Proof.
  destruct (verification_failure_recorded_then_returned failing
              (envOf "open" "no prefix") emptyWorld (errorString "boom")
              [CallCreate "o" "r" (createOptions failing "sha2");
               CallProcessPR (prOf "no prefix" "sha2");
               CallUpdate "o" "r" 1
                 (submission failing (envOf "open" "no prefix") emptyWorld)]
              eq_refl eq_refl eq_refl)
    as [c [w0 [before [H1 [_ [_ [H4 _]]]]]]].
  exists c, w0, before. split; [exact H1|exact H4].
Defined.

(** ** Counting the runs bound to a commit *)







(** ** onSync *)







(** ** Nil dereferences *)












(* ====================================================================== *)
(** * Further properties of plugin.go and type.go *)
(* ====================================================================== *)

(** ** Lookups after a creation *)

Lemma matches_created (p : PRPlugin.t) (owner repo sha : string) (id : Z) :
  matches owner repo sha (Some (PRPlugin.Name p))
    (mkEntry owner repo (newRun id (createOptions p sha))) = true.
Proof.
  unfold matches, inRepo. simpl. rewrite !String.eqb_refl. reflexivity.
Qed.

Lemma found_created (p : PRPlugin.t) (owner repo sha : string) (w w0 : World) :
  store w0 = store w ->
  found p owner repo sha (created owner repo (createOptions p sha) w0)
  = (found p owner repo sha w ++ [newRun (nextID w0) (createOptions p sha)])%list.
Proof.
  intros Hst. unfold found. world_simpl. rewrite Hst.
  rewrite filter_app, map_app. cbn [filter].
  rewrite matches_created. reflexivity.
Qed.

(** A second lookup of the same check on the same commit returns the run
    that the first one returned, and creates nothing: whether the first
    lookup found the run or created it, the second one finds exactly it. *)
Theorem getCheckRun_idempotent (p : PRPlugin.t) (owner repo sha : string)
    (w w1 : World) (r : CheckRun.t) :
  getCheckRun p owner repo sha w = (Returned (Some r, None), w1) ->
  served w1 ->
  getCheckRun p owner repo sha w1
  = (Returned (Some r, None),
     called (CallList owner repo sha (Some (PRPlugin.Name p))) w1) /\
  store (called (CallList owner repo sha (Some (PRPlugin.Name p))) w1)
  = store w1.
Proof.
  intros Hget Hs1. split; [|reflexivity].
  assert (Hfound : found p owner repo sha w1 = [r]).
  { rewrite getCheckRun_run in Hget. cbv zeta in Hget.
    destruct (hd None (faults w)); [discriminate|].
    destruct (found p owner repo sha w) as [|r1 [|r2 rest]] eqn:Hf.
    - rewrite createCheckRun_run in Hget.
      destruct (hd None (faults _)); [discriminate|].
      injection Hget as Hr Hw1. subst r w1.
      rewrite (found_created p owner repo sha w) by reflexivity.
      rewrite Hf. reflexivity.
    - injection Hget as Hr Hw1. subst r1 w1. exact Hf.
    - discriminate. }
  rewrite getCheckRun_run. cbv zeta. unfold served in Hs1.
  rewrite Hs1, Hfound. reflexivity.
Qed.

Lemma getCheckRun_idempotent_witness :
  getCheckRun passing "o" "r" "sha2"
    (created "o" "r" (createOptions passing "sha2")
       (called (CallList "o" "r" "sha2" (Some "PR Type")) emptyWorld))
  = (Returned (Some (runningRun 1 "sha2"), None),
     called (CallList "o" "r" "sha2" (Some "PR Type"))
       (created "o" "r" (createOptions passing "sha2")
          (called (CallList "o" "r" "sha2" (Some "PR Type")) emptyWorld))).
Proof.
  exact (proj1 (getCheckRun_idempotent passing "o" "r" "sha2" emptyWorld
                  (created "o" "r" (createOptions passing "sha2")
                     (called (CallList "o" "r" "sha2" (Some "PR Type"))
                        emptyWorld))
                  (runningRun 1 "sha2") eq_refl eq_refl)).
Defined.

(** When the lookup finds no run, [resetCheckRun] is [getCheckRun]: a run
    that has just been created is in progress already, so no update call
    follows the creation; and a failed lookup or creation is handed on. *)
Theorem resetCheckRun_of_missing_run (p : PRPlugin.t)
    (owner repo sha : string) (w : World) :
  found p owner repo sha w = [] ->
  resetCheckRun p owner repo sha w = getCheckRun p owner repo sha w.
Proof.
  intros Hnil. unfold resetCheckRun, bind.
  rewrite getCheckRun_run. cbv zeta. rewrite Hnil.
  destruct (hd None (faults w)); [reflexivity|].
  rewrite createCheckRun_run.
  destruct (hd None (faults _)); reflexivity.
Qed.

Lemma resetCheckRun_of_missing_run_witness :
  resetCheckRun passing "o" "r" "sha2" emptyWorld
  = getCheckRun passing "o" "r" "sha2" emptyWorld.
Proof.
  exact (resetCheckRun_of_missing_run passing "o" "r" "sha2" emptyWorld
           eq_refl).
Defined.

(** On a commit that has no run of the check yet, a reopen and an edit do,
    after their lookup, exactly what an open does: create the run, verify,
    finish. *)
Theorem reopen_and_edit_of_missing_run (p : PRPlugin.t) (env : ActionsEnv.t)
    (w : World) :
  found p (ActionsEnv.Owner env) (ActionsEnv.Repo env) (headSHAOf env) w = [] ->
  served w ->
  let listed :=
    called (CallList (ActionsEnv.Owner env) (ActionsEnv.Repo env)
              (headSHAOf env) (Some (PRPlugin.Name p))) w in
  onReopen p env w = onOpen p env listed /\
  onEdit p env w = onOpen p env listed.
Proof.
  intros Hnil Hs listed. unfold served in Hs. split.
  - unfold onReopen, onOpen, bind.
    rewrite getCheckRun_run. cbv zeta. rewrite Hs, Hnil. fold listed.
    rewrite createCheckRun_run.
    destruct (hd None (faults listed)); reflexivity.
  - unfold onEdit, resetCheckRun, onOpen, bind.
    rewrite getCheckRun_run. cbv zeta. rewrite Hs, Hnil. fold listed.
    rewrite createCheckRun_run.
    destruct (hd None (faults listed)); reflexivity.
Qed.

Lemma reopen_and_edit_of_missing_run_witness :
  onReopen failing (envOf "reopen" "no prefix") emptyWorld
  = onOpen failing (envOf "reopen" "no prefix")
      (called (CallList "o" "r" "sha2" (Some "PR Type")) emptyWorld) /\
  onEdit failing (envOf "edit" "no prefix") emptyWorld
  = onOpen failing (envOf "edit" "no prefix")
      (called (CallList "o" "r" "sha2" (Some "PR Type")) emptyWorld).
Proof.
  split.
  - exact (proj1 (reopen_and_edit_of_missing_run failing
                    (envOf "reopen" "no prefix") emptyWorld eq_refl eq_refl)).
  - exact (proj2 (reopen_and_edit_of_missing_run failing
                    (envOf "edit" "no prefix") emptyWorld eq_refl eq_refl)).
Defined.

(** ** Handlers that cannot panic *)

Lemma resetCheckRun_returns (p : PRPlugin.t) (owner repo sha : string)
    (w : World) :
  exists (res : option CheckRun.t * option error) (w1 : World),
    resetCheckRun p owner repo sha w = (Returned res, w1).
Proof.
  unfold resetCheckRun, bind.
  destruct (getCheckRun_returns p owner repo sha w)
    as [[e [w1 Hget]]|[r [w1 Hget]]]; rewrite Hget;
    [eexists; eexists; reflexivity|].
  destruct (Equal Started (GetStatus (Some r)));
    [eexists; eexists; reflexivity|].
  rewrite UpdateCheckRun_run.
  destruct (hd None (faults w1)); [eexists; eexists; reflexivity|].
  destruct (find _ (store w1)); eexists; eexists; reflexivity.
Qed.

Lemma submitted_returns (p : PRPlugin.t) (env : ActionsEnv.t)
    (c : option CheckRun.t) (w : World) :
  exists err : option error, fst (submitted p env c w) = Returned err.
Proof.
  unfold submitted, bind.
  destruct (processAndSubmit_total p env c w) as [[c' err] [w2 [Hps _]]].
  rewrite Hps. eexists; reflexivity.
Qed.

(** [onOpen] returns from every world, whatever the service stores or
    answers: it makes no list call, and it reads the run that the create
    call hands back through the nil-safe getter only. *)
Theorem onOpen_returns (p : PRPlugin.t) (env : ActionsEnv.t) (w : World) :
  exists err : option error, fst (onOpen p env w) = Returned err.
Proof.
  unfold onOpen, bind. rewrite createCheckRun_run.
  destruct (hd None (faults w)); [eexists; reflexivity|].
  apply (submitted_returns p env).
Qed.

(** ** The cost of a transition *)

Lemma remoteCalls_app (l1 l2 : list Call) :
  remoteCalls (l1 ++ l2) = (remoteCalls l1 + remoteCalls l2)%nat.
Proof. unfold remoteCalls. rewrite filter_app, length_app. reflexivity. Qed.

Lemma verifications_app (l1 l2 : list Call) :
  verifications (l1 ++ l2) = (verifications l1 + verifications l2)%nat.
Proof. unfold verifications. rewrite filter_app, length_app. reflexivity. Qed.

Lemma within_refl (w : World) : within 0 0 w w.
Proof.
  exists []. rewrite app_nil_r. unfold remoteCalls, verifications.
  repeat split; simpl; lia.
Qed.

Lemma within_trans (n v m u : nat) (w1 w2 w3 : World) :
  within n v w1 w2 -> within m u w2 w3 -> within (n + m) (v + u) w1 w3.
Proof.
  intros [d1 [Ht1 [Hn Hv]]] [d2 [Ht2 [Hm Hu]]].
  exists (d1 ++ d2)%list. split.
  - rewrite Ht2, Ht1, app_assoc. reflexivity.
  - rewrite remoteCalls_app, verifications_app. lia.
Qed.

Lemma within_weaken (n v n' v' : nat) (w w' : World) :
  within n v w w' -> (n <= n')%nat -> (v <= v')%nat -> within n' v' w w'.
Proof.
  intros [d [Ht [Hn Hv]]] Hn' Hv'. exists d. repeat split; [exact Ht|lia|lia].
Qed.

Lemma within_one (c : Call) (w w' : World) :
  trace w' = (trace w ++ [c])%list ->
  within (if isVerification c then 0 else 1)
         (if isVerification c then 1 else 0) w w'.
Proof.
  intros Ht. exists [c]. split; [exact Ht|].
  unfold remoteCalls, verifications. simpl.
  destruct (isVerification c); simpl; lia.
Qed.

Lemma costs_ret {A} (a : A) : costs 0 0 (ret a).
Proof. intros w. apply within_refl. Qed.

Lemma costs_panic {A} : costs 0 0 (@panic A).
Proof. intros w. apply within_refl. Qed.

Lemma costs_bind {A B} (n v m u : nat) (c : M A) (k : A -> M B) :
  costs n v c -> (forall a : A, costs m u (k a)) ->
  costs (n + m) (v + u) (bind c k).
Proof.
  intros Hc Hk w. unfold bind. specialize (Hc w).
  destruct (c w) as [[a|] w1]; simpl in Hc.
  - eapply within_trans; [exact Hc|apply Hk].
  - eapply within_weaken; [exact Hc|lia|lia].
Qed.

Lemma costs_weaken {A} (n v n' v' : nat) (c : M A) :
  costs n v c -> (n <= n')%nat -> (v <= v')%nat -> costs n' v' c.
Proof. intros Hc Hn Hv w. eapply within_weaken; eauto. Qed.

Lemma costs_CreateCheckRun (owner repo : string)
    (opts : CreateCheckRunOptions.t) :
  costs 1 0 (Checks.CreateCheckRun owner repo opts).
Proof.
  intros w. rewrite CreateCheckRun_run.
  destruct (hd None (faults w));
    apply (within_one (CallCreate owner repo opts)); reflexivity.
Qed.

Lemma costs_ListCheckRunsForRef (owner repo ref : string)
    (checkName : option string) :
  costs 1 0 (Checks.ListCheckRunsForRef owner repo ref checkName).
Proof.
  intros w. rewrite ListCheckRunsForRef_run.
  apply (within_one (CallList owner repo ref checkName)); reflexivity.
Qed.

Lemma costs_UpdateCheckRun (owner repo : string) (id : Z)
    (opts : UpdateCheckRunOptions.t) :
  costs 1 0 (Checks.UpdateCheckRun owner repo id opts).
Proof.
  intros w. rewrite UpdateCheckRun_run.
  destruct (hd None (faults w)); [|destruct (find _ (store w))];
    apply (within_one (CallUpdate owner repo id opts)); reflexivity.
Qed.

Lemma costs_processPR (p : PRPlugin.t) (pr : option PullRequest.t) :
  costs 0 1 (processPR p pr).
Proof.
  intros w. rewrite processPR_run.
  apply (within_one (CallProcessPR pr)); reflexivity.
Qed.

Lemma costs_failureOf (c : option CheckRun.t) : costs 0 0 (failureOf c).
Proof. intros w. rewrite failureOf_world. apply within_refl. Qed.

Lemma costs_createCheckRun (p : PRPlugin.t) (owner repo sha : string) :
  costs 1 0 (createCheckRun p owner repo sha).
Proof.
  apply (costs_bind 1 0 0 0); [apply costs_CreateCheckRun|].
  intros [c [e|]]; apply costs_ret.
Qed.

Lemma costs_getCheckRun (p : PRPlugin.t) (owner repo sha : string) :
  costs 2 0 (getCheckRun p owner repo sha).
Proof.
  apply (costs_bind 1 0 1 0); [apply costs_ListCheckRunsForRef|].
  intros [l [e|]]; [eapply costs_weaken; [apply costs_ret|lia|lia]|].
  destruct l as [l|]; [|eapply costs_weaken; [apply costs_panic|lia|lia]].
  destruct (ListCheckRunsResults.Total l) as [n|];
    [|eapply costs_weaken; [apply costs_panic|lia|lia]].
  destruct (n =? 0); [apply costs_createCheckRun|].
  destruct (n =? 1).
  - destruct (ListCheckRunsResults.CheckRuns l);
      eapply costs_weaken;
      [apply costs_panic|lia|lia|apply costs_ret|lia|lia].
  - destruct (n >? 1); eapply costs_weaken; [apply costs_ret|lia|lia|apply costs_ret|lia|lia].
Qed.

Lemma costs_finishCheckRun (p : PRPlugin.t) (owner repo : string) (id : Z)
    (conclusion summary text : string) :
  costs 1 0 (finishCheckRun p owner repo id conclusion summary text).
Proof.
  apply (costs_bind 0 0 1 0); [intros w; apply within_refl|].
  intros now. apply (costs_bind 1 0 0 0); [apply costs_UpdateCheckRun|].
  intros [c [e|]]; apply costs_ret.
Qed.

Lemma costs_processAndSubmit (p : PRPlugin.t) (env : ActionsEnv.t)
    (c : option CheckRun.t) :
  costs 1 1 (processAndSubmit p env c).
Proof.
  apply (costs_bind 0 1 1 0); [apply costs_processPR|].
  intros [[[conclusion summary] text] procErr].
  apply (costs_bind 1 0 0 0); [apply costs_finishCheckRun|].
  intros [c' [e|]]; [apply costs_ret|].
  destruct procErr; apply costs_ret.
Qed.

Lemma costs_submitted (p : PRPlugin.t) (env : ActionsEnv.t)
    (c : option CheckRun.t) :
  costs 1 1 (submitted p env c).
Proof.
  apply (costs_bind 1 1 0 0); [apply costs_processAndSubmit|].
  intros [c' err]. apply costs_ret.
Qed.

Lemma costs_resetCheckRun (p : PRPlugin.t) (owner repo sha : string) :
  costs 3 0 (resetCheckRun p owner repo sha).
Proof.
  apply (costs_bind 2 0 1 0); [apply costs_getCheckRun|].
  intros [c [e|]]; [eapply costs_weaken; [apply costs_ret|lia|lia]|].
  destruct (Equal Started (GetStatus c));
    [eapply costs_weaken; [apply costs_ret|lia|lia]|].
  apply (costs_bind 1 0 0 0); [apply costs_UpdateCheckRun|].
  intros [c' [e|]]; apply costs_ret.
Qed.

Lemma costs_duplicateCheckRun (p : PRPlugin.t) (owner repo sha : string)
    (c : option CheckRun.t) :
  costs 1 0 (duplicateCheckRun p owner repo sha c).
Proof.
  unfold duplicateCheckRun.
  destruct c as [src|]; [|eapply costs_weaken; [apply costs_panic|lia|lia]].
  apply (costs_bind 1 0 0 0); [apply costs_CreateCheckRun|].
  intros [c' [e|]]; apply costs_ret.
Qed.

Lemma costs_onOpen (p : PRPlugin.t) (env : ActionsEnv.t) :
  costs 2 1 (onOpen p env).
Proof.
  apply (costs_bind 1 0 1 1); [apply costs_createCheckRun|].
  intros [c [e|]]; [eapply costs_weaken; [apply costs_ret|lia|lia]|].
  apply costs_submitted.
Qed.

Lemma costs_onReopen (p : PRPlugin.t) (env : ActionsEnv.t) :
  costs 3 1 (onReopen p env).
Proof.
  apply (costs_bind 2 0 1 1); [apply costs_getCheckRun|].
  intros [c [e|]]; [eapply costs_weaken; [apply costs_ret|lia|lia]|].
  destruct (negb _); [apply costs_submitted|].
  eapply costs_weaken; [apply costs_failureOf|lia|lia].
Qed.

Lemma costs_onEdit (p : PRPlugin.t) (env : ActionsEnv.t) :
  costs 4 1 (onEdit p env).
Proof.
  apply (costs_bind 3 0 1 1); [apply costs_resetCheckRun|].
  intros [c [e|]]; [eapply costs_weaken; [apply costs_ret|lia|lia]|].
  apply costs_submitted.
Qed.

Lemma costs_onSync (p : PRPlugin.t) (env : ActionsEnv.t) :
  costs 4 1 (onSync p env).
Proof.
  assert (Hdup : forall c : option CheckRun.t,
             costs 1 0
               ('(c', err) <-
                  duplicateCheckRun p (ActionsEnv.Owner env)
                    (ActionsEnv.Repo env) (GetAfter (ActionsEnv.Event env)) c ;;
                match err with
                | Some _ => ret err
                | None => failureOf c'
                end)).
  { intros c. apply (costs_bind 1 0 0 0); [apply costs_duplicateCheckRun|].
    intros [c' [e|]]; [apply costs_ret|apply costs_failureOf]. }
  apply (costs_bind 2 0 2 1); [apply costs_getCheckRun|].
  intros [c [e|]]; [eapply costs_weaken; [apply costs_ret|lia|lia]|].
  cbv zeta. destruct (negb _).
  - apply (costs_bind 1 1 1 0); [apply costs_processAndSubmit|].
    intros [c' [e|]]; [eapply costs_weaken; [apply costs_ret|lia|lia]|].
    apply Hdup.
  - eapply costs_weaken; [apply Hdup|lia|lia].
Qed.

(** Whatever the event, the store and the answers of the service, one
    transition invokes the verification function at most once and makes at
    most four remote calls. *)
Theorem entrypoint_cost (p : PRPlugin.t) (env : ActionsEnv.t) (w : World) :
  exists delta : list Call,
    trace (snd (entrypoint p env w)) = (trace w ++ delta)%list /\
    (verifications delta <= 1)%nat /\
    (remoteCalls delta <= 4)%nat.
Proof.
  assert (H : within 4 1 w (snd (entrypoint p env w))).
  { unfold entrypoint.
    destruct (String.eqb _ "open");
      [eapply within_weaken; [apply costs_onOpen|lia|lia]|].
    destruct (String.eqb _ "reopen");
      [eapply within_weaken; [apply costs_onReopen|lia|lia]|].
    destruct (String.eqb _ "edit"); [apply costs_onEdit|].
    destruct (String.eqb _ "synchronize"); [apply costs_onSync|].
    eapply within_weaken; [apply within_refl|lia|lia]. }
  destruct H as [delta [Ht [Hn Hv]]]. exists delta. auto.
Qed.

(** ** Stored runs are never removed nor rebound *)

Lemma grows_refl (w : World) : grows 0 w w.
Proof. exists []. simpl. rewrite app_nil_r. split; [reflexivity|lia]. Qed.

Lemma grows_same (w w' : World) : store w' = store w -> grows 0 w w'.
Proof.
  intros Hst. exists []. rewrite Hst. simpl. rewrite app_nil_r.
  split; [reflexivity|lia].
Qed.

Lemma grows_trans (n m : nat) (w1 w2 w3 : World) :
  grows n w1 w2 -> grows m w2 w3 -> grows (n + m) w1 w3.
Proof.
  intros [x1 [H1 Hn]] [x2 [H2 Hm]].
  exists (x1 ++ x2)%list. split.
  - rewrite H2, H1, map_app, app_assoc. reflexivity.
  - rewrite length_app. lia.
Qed.

Lemma grows_weaken (n n' : nat) (w w' : World) :
  grows n w w' -> (n <= n')%nat -> grows n' w w'.
Proof. intros [x [H Hn]] Hn'. exists x. split; [exact H|lia]. Qed.

Lemma binding_updateEntry (owner repo : string) (id : Z)
    (opts : UpdateCheckRunOptions.t) (en : Entry) :
  binding (updateEntry owner repo id opts en) = binding en.
Proof. unfold updateEntry. destruct (hasID owner repo id en); reflexivity. Qed.

Lemma grows_updated (owner repo : string) (id : Z)
    (opts : UpdateCheckRunOptions.t) (w : World) :
  grows 0 w (updated owner repo id opts w).
Proof.
  exists []. simpl. rewrite app_nil_r. split; [|lia].
  world_simpl. rewrite map_map.
  apply map_ext. intros en. apply binding_updateEntry.
Qed.

Lemma grows_created (owner repo : string) (opts : CreateCheckRunOptions.t)
    (w : World) :
  grows 1 w (created owner repo opts w).
Proof.
  exists [mkEntry owner repo (newRun (nextID w) opts)].
  world_simpl. rewrite map_app. split; [reflexivity|simpl; lia].
Qed.

Lemma adds_ret {A} (a : A) : adds 0 (ret a).
Proof. intros w. apply grows_refl. Qed.

Lemma adds_panic {A} : adds 0 (@panic A).
Proof. intros w. apply grows_refl. Qed.

Lemma adds_bind {A B} (n m : nat) (c : M A) (k : A -> M B) :
  adds n c -> (forall a : A, adds m (k a)) -> adds (n + m) (bind c k).
Proof.
  intros Hc Hk w. unfold bind. specialize (Hc w).
  destruct (c w) as [[a|] w1]; simpl in Hc.
  - eapply grows_trans; [exact Hc|apply Hk].
  - eapply grows_weaken; [exact Hc|lia].
Qed.

Lemma adds_weaken {A} (n n' : nat) (c : M A) :
  adds n c -> (n <= n')%nat -> adds n' c.
Proof. intros Hc Hn w. eapply grows_weaken; eauto. Qed.

Lemma adds_createCheckRun (p : PRPlugin.t) (owner repo sha : string) :
  adds 1 (createCheckRun p owner repo sha).
Proof.
  intros w. rewrite createCheckRun_run.
  destruct (hd None (faults w)); simpl.
  - eapply grows_weaken; [apply grows_same; reflexivity|lia].
  - apply grows_created.
Qed.

Lemma adds_getCheckRun (p : PRPlugin.t) (owner repo sha : string) :
  adds 1 (getCheckRun p owner repo sha).
Proof.
  intros w. rewrite getCheckRun_run. cbv zeta.
  destruct (hd None (faults w));
    [eapply grows_weaken; [apply grows_same; reflexivity|lia]|].
  destruct (found p owner repo sha w) as [|r [|r' rest]];
    [|eapply grows_weaken; [apply grows_same; reflexivity|lia]..].
  apply (grows_trans 0 1 w
           (called (CallList owner repo sha (Some (PRPlugin.Name p))) w));
    [apply grows_same; reflexivity|apply adds_createCheckRun].
Qed.

Lemma adds_UpdateCheckRun (owner repo : string) (id : Z)
    (opts : UpdateCheckRunOptions.t) :
  adds 0 (Checks.UpdateCheckRun owner repo id opts).
Proof.
  intros w. rewrite UpdateCheckRun_run.
  destruct (hd None (faults w)); [apply grows_same; reflexivity|].
  destruct (find _ (store w)); [|apply grows_same; reflexivity].
  simpl. apply (grows_trans 0 0 w (called (CallUpdate owner repo id opts) w));
    [apply grows_same; reflexivity|].
  exists []. simpl. rewrite app_nil_r. split; [|lia].
  world_simpl. rewrite map_map. apply map_ext. intros en.
  apply binding_updateEntry.
Qed.

Lemma adds_resetCheckRun (p : PRPlugin.t) (owner repo sha : string) :
  adds 1 (resetCheckRun p owner repo sha).
Proof.
  apply (adds_bind 1 0); [apply adds_getCheckRun|].
  intros [c [e|]]; [apply adds_ret|].
  destruct (Equal Started (GetStatus c)); [apply adds_ret|].
  apply (adds_bind 0 0); [apply adds_UpdateCheckRun|].
  intros [c' [e|]]; apply adds_ret.
Qed.

Lemma adds_processAndSubmit (p : PRPlugin.t) (env : ActionsEnv.t)
    (c : option CheckRun.t) :
  adds 0 (processAndSubmit p env c).
Proof.
  intros w. rewrite processAndSubmit_run. cbv zeta.
  destruct (hd None (faults w)); [apply grows_same; reflexivity|].
  destruct (find _ (store w)); [|apply grows_same; reflexivity].
  simpl.
  apply (grows_trans 0 0 w
           (invoked (PullRequestEvent.PullRequest (ActionsEnv.Event env)) w));
    [apply grows_same; reflexivity|apply grows_updated].
Qed.

Lemma adds_submitted (p : PRPlugin.t) (env : ActionsEnv.t)
    (c : option CheckRun.t) :
  adds 0 (submitted p env c).
Proof.
  apply (adds_bind 0 0); [apply adds_processAndSubmit|].
  intros [c' err]. apply adds_ret.
Qed.

Lemma adds_failureOf (c : option CheckRun.t) : adds 0 (failureOf c).
Proof. intros w. rewrite failureOf_world. apply grows_refl. Qed.

Lemma adds_duplicateCheckRun (p : PRPlugin.t) (owner repo sha : string)
    (c : option CheckRun.t) :
  adds 1 (duplicateCheckRun p owner repo sha c).
Proof.
  unfold duplicateCheckRun.
  destruct c as [src|]; [|eapply adds_weaken; [apply adds_panic|lia]].
  intros w. unfold bind. rewrite CreateCheckRun_run.
  destruct (hd None (faults w)); simpl.
  - eapply grows_weaken; [apply grows_same; reflexivity|lia].
  - apply grows_created.
Qed.

(** No transition removes a stored run, moves it, or changes its
    repository, id or commit: afterwards the store holds the same runs in
    the same places, bound as before, followed by at most two new ones (at
    most one unless the event is a synchronize). *)
Theorem entrypoint_keeps_runs (p : PRPlugin.t) (env : ActionsEnv.t)
    (w : World) :
  exists extra : list Entry,
    map binding (store (snd (entrypoint p env w)))
    = (map binding (store w) ++ map binding extra)%list /\
    (length extra <= 2)%nat /\
    (GetAction (ActionsEnv.Event env) <> "synchronize" ->
     (length extra <= 1)%nat).
Proof.
  assert (Hopen : adds 1 (onOpen p env)).
  { apply (adds_bind 1 0); [apply adds_createCheckRun|].
    intros [c [e|]]; [apply adds_ret|apply adds_submitted]. }
  assert (Hreopen : adds 1 (onReopen p env)).
  { apply (adds_bind 1 0); [apply adds_getCheckRun|].
    intros [c [e|]]; [apply adds_ret|].
    destruct (negb _); [apply adds_submitted|apply adds_failureOf]. }
  assert (Hedit : adds 1 (onEdit p env)).
  { apply (adds_bind 1 0); [apply adds_resetCheckRun|].
    intros [c [e|]]; [apply adds_ret|apply adds_submitted]. }
  assert (Hsync : adds 2 (onSync p env)).
  { assert (Hdup : forall c : option CheckRun.t,
               adds 1
                 ('(c', err) <-
                    duplicateCheckRun p (ActionsEnv.Owner env)
                      (ActionsEnv.Repo env) (GetAfter (ActionsEnv.Event env))
                      c ;;
                  match err with
                  | Some _ => ret err
                  | None => failureOf c'
                  end)).
    { intros c. apply (adds_bind 1 0); [apply adds_duplicateCheckRun|].
      intros [c' [e|]]; [apply adds_ret|apply adds_failureOf]. }
    apply (adds_bind 1 1); [apply adds_getCheckRun|].
    intros [c [e|]]; [eapply adds_weaken; [apply adds_ret|lia]|].
    cbv zeta. destruct (negb _); [|apply Hdup].
    apply (adds_bind 0 1); [apply adds_processAndSubmit|].
    intros [c' [e|]]; [eapply adds_weaken; [apply adds_ret|lia]|apply Hdup]. }
  unfold entrypoint.
  destruct (String.eqb _ "open");
    [destruct (Hopen w) as [x [Hx Hn]]; exists x;
     split; [exact Hx|split; [lia|intros _; exact Hn]]|].
  destruct (String.eqb _ "reopen");
    [destruct (Hreopen w) as [x [Hx Hn]]; exists x;
     split; [exact Hx|split; [lia|intros _; exact Hn]]|].
  destruct (String.eqb _ "edit");
    [destruct (Hedit w) as [x [Hx Hn]]; exists x;
     split; [exact Hx|split; [lia|intros _; exact Hn]]|].
  destruct (String.eqb _ "synchronize") eqn:Hsy.
  - destruct (Hsync w) as [x [Hx Hn]]. exists x.
    split; [exact Hx|split; [exact Hn|]].
    intros Hne. apply String.eqb_eq in Hsy. contradiction.
  - exists []. simpl. rewrite app_nil_r.
    split; [reflexivity|split; [lia|intros _; lia]].
Qed.

Lemma entrypoint_keeps_runs_witness :
  exists extra : list Entry,
    map binding (store (snd (entrypoint passing (envOf "edit" "a title")
                               (worldOf [passedRun 1 "sha2"] []))))
    = (map binding (store (worldOf [passedRun 1 "sha2"] []))
       ++ map binding extra)%list /\
    (length extra <= 1)%nat.
Proof.
  destruct (entrypoint_keeps_runs passing (envOf "edit" "a title")
              (worldOf [passedRun 1 "sha2"] [])) as [x [Hx [_ H1]]].
  exists x. split; [exact Hx|]. apply H1. discriminate.
Defined.

(** ** An open without failures, end to end *)

Lemma find_app_fresh {A} (f : A -> bool) (l : list A) (y : A) :
  (forall x : A, In x l -> f x = false) ->
  find f (l ++ [y]) = if f y then Some y else None.
Proof.
  induction l as [|x l IH]; intros Hl; [reflexivity|].
  cbn [app find]. rewrite (Hl x (or_introl eq_refl)).
  apply IH. intros z Hz. apply Hl. right. exact Hz.
Qed.

Lemma map_updateEntry_fresh (owner repo : string) (id : Z)
    (opts : UpdateCheckRunOptions.t) (l : list Entry) :
  (forall en : Entry, In en l -> hasID owner repo id en = false) ->
  map (updateEntry owner repo id opts) l = l.
Proof.
  induction l as [|x l IH]; intros Hl; [reflexivity|].
  cbn [map]. unfold updateEntry at 1. rewrite (Hl x (or_introl eq_refl)).
  rewrite IH; [reflexivity|]. intros z Hz. apply Hl. right. exact Hz.
Qed.

Lemma hasID_newRun (owner repo : string) (id : Z)
    (opts : CreateCheckRunOptions.t) :
  hasID owner repo id (mkEntry owner repo (newRun id opts)) = true.
Proof.
  unfold hasID, inRepo. simpl.
  rewrite !String.eqb_refl, Z.eqb_refl. reflexivity.
Qed.

Lemma onOpen_run (p : PRPlugin.t) (env : ActionsEnv.t) (w : World) :
  faults w = [] ->
  freshID (ActionsEnv.Owner env) (ActionsEnv.Repo env) w ->
  onOpen p env w =
  (Returned
     (option_map (fun e => failed (Error e))
        (snd (PRPlugin.ProcessPR p
                (PullRequestEvent.PullRequest (ActionsEnv.Event env))))),
   updated (ActionsEnv.Owner env) (ActionsEnv.Repo env) (nextID w)
     (submission p env w)
     (invoked (PullRequestEvent.PullRequest (ActionsEnv.Event env))
        (created (ActionsEnv.Owner env) (ActionsEnv.Repo env)
           (createOptions p (headSHAOf env)) w))) /\
  store
    (updated (ActionsEnv.Owner env) (ActionsEnv.Repo env) (nextID w)
       (submission p env w)
       (invoked (PullRequestEvent.PullRequest (ActionsEnv.Event env))
          (created (ActionsEnv.Owner env) (ActionsEnv.Repo env)
             (createOptions p (headSHAOf env)) w)))
  = (store w ++
       [mkEntry (ActionsEnv.Owner env) (ActionsEnv.Repo env)
          (applyUpdate (submission p env w)
             (newRun (nextID w) (createOptions p (headSHAOf env))))])%list.
Proof.
  intros Hf Hfresh.
  assert (Hfind :
            find (hasID (ActionsEnv.Owner env) (ActionsEnv.Repo env) (nextID w))
              (store w ++
                 [mkEntry (ActionsEnv.Owner env) (ActionsEnv.Repo env)
                    (newRun (nextID w) (createOptions p (headSHAOf env)))])
            = Some (mkEntry (ActionsEnv.Owner env) (ActionsEnv.Repo env)
                      (newRun (nextID w) (createOptions p (headSHAOf env))))).
  { rewrite (find_app_fresh _ _ _ Hfresh), hasID_newRun. reflexivity. }
  split.
  - unfold onOpen, bind. rewrite createCheckRun_run, Hf. cbn [hd].
    rewrite processAndSubmit_run. cbv zeta.
    change (faults (created _ _ _ w)) with (tl (faults w)).
    rewrite Hf. cbn [tl hd].
    change (store (created (ActionsEnv.Owner env) (ActionsEnv.Repo env)
                     (createOptions p (headSHAOf env)) w))
      with (store w ++
              [mkEntry (ActionsEnv.Owner env) (ActionsEnv.Repo env)
                 (newRun (nextID w) (createOptions p (headSHAOf env)))])%list.
    change (GetID (Some (newRun (nextID w) (createOptions p (headSHAOf env)))))
      with (nextID w).
    rewrite Hfind. reflexivity.
  - world_simpl. rewrite map_app.
    rewrite (map_updateEntry_fresh _ _ _ _ _ Hfresh).
    cbn [map]. unfold updateEntry. rewrite hasID_newRun. reflexivity.
Qed.

(** An open that meets no remote failure, in a store where the next id is
    not taken, appends exactly one run and touches no other: the new run is
    bound to the head SHA, carries the plugin's name, is completed, and has
    the conclusion and the summary of the verdict; the handler returns nil
    if the verification passed and "failed: <message>" if it did not. *)
Theorem onOpen_end_to_end (p : PRPlugin.t) (env : ActionsEnv.t) (w : World) :
  faults w = [] ->
  freshID (ActionsEnv.Owner env) (ActionsEnv.Repo env) w ->
  let verified :=
    snd (PRPlugin.ProcessPR p
           (PullRequestEvent.PullRequest (ActionsEnv.Event env))) in
  exists run : CheckRun.t,
    store (snd (onOpen p env w))
    = (store w ++
         [mkEntry (ActionsEnv.Owner env) (ActionsEnv.Repo env) run])%list /\
    fst (onOpen p env w)
    = Returned (option_map (fun e => failed (Error e)) verified) /\
    CheckRun.ID run = Some (nextID w) /\
    CheckRun.Name run = Some (PRPlugin.Name p) /\
    CheckRun.HeadSHA run = Some (headSHAOf env) /\
    CheckRun.Status run = Some "completed" /\
    CheckRun.Conclusion run
    = Some (match verified with Some _ => "failure" | None => "success" end) /\
    exists o : CheckRunOutput.t,
      CheckRun.Output run = Some o /\
      CheckRunOutput.Title o = Some (PRPlugin.Title p) /\
      CheckRunOutput.Summary o
      = Some (match verified with Some e => Error e | None => "Success" end).
Proof.
  intros Hf Hfresh verified.
  destruct (onOpen_run p env w Hf Hfresh) as [Hrun Hstore].
  exists (applyUpdate (submission p env w)
            (newRun (nextID w) (createOptions p (headSHAOf env)))).
  rewrite Hrun. cbn [fst snd]. split; [exact Hstore|].
  split; [reflexivity|].
  unfold submission, verdict. fold verified.
  destruct verified as [e|]; repeat split; eexists; repeat split.
Qed.

Lemma onOpen_end_to_end_witness :
  exists run : CheckRun.t,
    store (snd (onOpen failing (envOf "open" "no prefix") emptyWorld))
    = [mkEntry "o" "r" run] /\
    fst (onOpen failing (envOf "open" "no prefix") emptyWorld)
    = Returned (Some (failed "boom")) /\
    CheckRun.Conclusion run = Some "failure".
Proof.
  destruct (onOpen_end_to_end failing (envOf "open" "no prefix") emptyWorld
              eq_refl)
    as [run [Hst [Hres [_ [_ [_ [_ [Hc _]]]]]]]].
  - intros en [].
  - exists run. split; [exact Hst|]. split; [exact Hres|exact Hc].
Defined.

Lemma submission_Name (p : PRPlugin.t) (env : ActionsEnv.t) (w : World) :
  UpdateCheckRunOptions.Name (submission p env w) = PRPlugin.Name p.
Proof.
  unfold submission.
  destruct (verdict p _) as [[[conclusion summary] text] procErr].
  reflexivity.
Qed.

(** When the commit had no run of the check before such an open, a reopen
    that follows the open on the same commit replays its result: it finds
    the run that the open finished, returns what the open returned (nil, or
    the same "failed: <message>"), and neither verifies again nor changes
    the store. *)
Theorem reopen_replays_open (p : PRPlugin.t) (env : ActionsEnv.t) (w : World) :
  faults w = [] ->
  freshID (ActionsEnv.Owner env) (ActionsEnv.Repo env) w ->
  found p (ActionsEnv.Owner env) (ActionsEnv.Repo env) (headSHAOf env) w = [] ->
  let opened := snd (onOpen p env w) in
  let listed :=
    called (CallList (ActionsEnv.Owner env) (ActionsEnv.Repo env)
              (headSHAOf env) (Some (PRPlugin.Name p))) opened in
  onReopen p env opened = (fst (onOpen p env w), listed) /\
  store listed = store opened.
Proof.
  intros Hf Hfresh Hnil opened listed.
  destruct (onOpen_run p env w Hf Hfresh) as [Hrun Hstore].
  split; [|reflexivity].
  assert (Hopened : store opened
                    = (store w ++
                         [mkEntry (ActionsEnv.Owner env) (ActionsEnv.Repo env)
                            (applyUpdate (submission p env w)
                               (newRun (nextID w)
                                  (createOptions p (headSHAOf env))))])%list).
  { unfold opened. rewrite Hrun. exact Hstore. }
  assert (Hfaults : hd None (faults opened) = None).
  { unfold opened. rewrite Hrun. cbn [snd]. world_simpl. rewrite Hf.
    reflexivity. }
  assert (Hfound : found p (ActionsEnv.Owner env) (ActionsEnv.Repo env)
                     (headSHAOf env) opened
                   = [applyUpdate (submission p env w)
                        (newRun (nextID w) (createOptions p (headSHAOf env)))]).
  { unfold found in *. rewrite Hopened, filter_app, map_app, Hnil.
    cbn [filter app].
    replace (matches _ _ _ _ _) with true; [reflexivity|].
    unfold matches, inRepo. simpl.
    rewrite submission_Name, !String.eqb_refl. reflexivity. }
  unfold onReopen, bind. rewrite getCheckRun_run. cbv zeta.
  rewrite Hfaults, Hfound. fold listed.
  rewrite Hrun. cbn [fst].
  unfold submission, verdict.
  destruct (snd (PRPlugin.ProcessPR p _)) as [e|]; reflexivity.
Qed.

Lemma reopen_replays_open_witness :
  fst (onReopen failing (envOf "reopen" "no prefix")
         (snd (onOpen failing (envOf "reopen" "no prefix") emptyWorld)))
  = Returned (Some (failed "boom")).
Proof.
  destruct (reopen_replays_open failing (envOf "reopen" "no prefix")
              emptyWorld eq_refl) as [H _].
  - intros en [].
  - reflexivity.
  - rewrite H. reflexivity.
Defined.

(** ** The errors that come back *)

Lemma createCheckRun_returns (p : PRPlugin.t) (owner repo sha : string)
    (w : World) :
  exists (res : option CheckRun.t * option error) (w1 : World),
    createCheckRun p owner repo sha w = (Returned res, w1).
Proof.
  rewrite createCheckRun_run.
  destruct (hd None (faults w)); eexists; eexists; reflexivity.
Qed.

(** [getCheckRun] is the list call followed by [selectCheckRun]; and
    whatever the list call has answered, when [selectCheckRun] returns an
    error it returns no run with it and nothing has been stored. The error
    is one of four: the wrapped error of the list call; for a total of
    zero, the wrapped error of the create call; for a total above one, the
    error for several matches; for a negative total, the error that names
    that total. [Unwrap] gives back the cause of the two wrapped ones. *)
Theorem selectCheckRun_failure (p : PRPlugin.t) (owner repo sha : string) :
  getCheckRun p owner repo sha
  = ('(l, err) <-
       Checks.ListCheckRunsForRef owner repo sha (Some (PRPlugin.Name p)) ;;
     selectCheckRun p owner repo sha l err) /\
  forall (l : option ListCheckRunsResults.t) (err : option error)
         (w w1 : World) (c : option CheckRun.t) (e : error),
    selectCheckRun p owner repo sha l err w = (Returned (c, Some e), w1) ->
    c = None /\
    store w1 = store w /\
    ((exists cause : error,
        err = Some cause /\
        e = Errorf_w "unable to list check runs: " cause /\
        Unwrap e = Some cause)
     \/
     (exists (a : ListCheckRunsResults.t) (f : Fault),
        err = None /\ l = Some a /\ ListCheckRunsResults.Total a = Some 0 /\
        hd None (faults w) = Some f /\
        e = Errorf_w "unable to create check run: " (fault_err f) /\
        Unwrap e = Some (fault_err f))
     \/
     (exists (a : ListCheckRunsResults.t) (n : Z),
        err = None /\ l = Some a /\ ListCheckRunsResults.Total a = Some n /\
        1 < n /\
        e = multipleInstances p owner repo sha)
     \/
     (exists (a : ListCheckRunsResults.t) (n : Z),
        err = None /\ l = Some a /\ ListCheckRunsResults.Total a = Some n /\
        n < 0 /\
        e = negativeInstances n p owner repo sha)).
Proof.
  split; [reflexivity|].
  intros l err w w1 c e. unfold selectCheckRun.
  destruct err as [cause|].
  { intros Heq. injection Heq as Hc He Hw. subst c e w1.
    split; [reflexivity|]. split; [reflexivity|].
    left. exists cause. repeat split. }
  destruct l as [a|]; [|discriminate].
  destruct (ListCheckRunsResults.Total a) as [n|] eqn:Htot; [|discriminate].
  destruct (n =? 0) eqn:H0.
  { apply Z.eqb_eq in H0. subst n. rewrite createCheckRun_run.
    destruct (hd None (faults w)) as [f|] eqn:Hhd; [|discriminate].
    intros Heq. injection Heq as Hc He Hw. subst c e w1.
    split; [reflexivity|]. split; [reflexivity|].
    right. left. exists a, f. repeat split. exact Htot. }
  destruct (n =? 1) eqn:H1.
  { destruct (ListCheckRunsResults.CheckRuns a); discriminate. }
  destruct (n >? 1) eqn:Hgt.
  - intros Heq. injection Heq as Hc He Hw. subst c e w1.
    split; [reflexivity|]. split; [reflexivity|].
    right. right. left. exists a, n. repeat split; try assumption.
    apply Z.gtb_lt in Hgt. lia.
  - intros Heq. injection Heq as Hc He Hw. subst c e w1.
    split; [reflexivity|]. split; [reflexivity|].
    right. right. right. exists a, n. repeat split; try assumption.
    apply Z.eqb_neq in H0, H1.
    rewrite Z.gtb_ltb in Hgt. apply Z.ltb_ge in Hgt. lia.
Qed.

Lemma selectCheckRun_failure_witness :
  selectCheckRun passing "o" "r" "sha2"
    (Some (ListCheckRunsResults.mk (Some (-1)) [])) None emptyWorld
  = (Returned (None, Some (negativeInstances (-1) passing "o" "r" "sha2")),
     emptyWorld) /\
  store emptyWorld = store emptyWorld.
Proof.
  split; [reflexivity|].
  destruct (proj2 (selectCheckRun_failure passing "o" "r" "sha2")
              (Some (ListCheckRunsResults.mk (Some (-1)) [])) None
              emptyWorld emptyWorld None
              (negativeInstances (-1) passing "o" "r" "sha2") eq_refl)
    as [_ [Hst _]].
  exact Hst.
Defined.

(** Whatever the list call has answered, [selectCheckRun] panics exactly
    when there is no error and the answer is a nil list, a list with a nil
    total, or a list with a total of one and no run: the three
    dereferences of plugin.go:136 and 140 have no guard. *)
Theorem selectCheckRun_panics (p : PRPlugin.t) (owner repo sha : string)
    (l : option ListCheckRunsResults.t) (err : option error) (w : World) :
  fst (selectCheckRun p owner repo sha l err w) = Panicked <->
  err = None /\
  (l = None \/
   exists a : ListCheckRunsResults.t,
     l = Some a /\
     (ListCheckRunsResults.Total a = None \/
      (ListCheckRunsResults.Total a = Some 1 /\
       ListCheckRunsResults.CheckRuns a = []))).
Proof.
  unfold selectCheckRun. split.
  - destruct err as [cause|]; [discriminate|].
    destruct l as [a|]; [|intros _; split; [reflexivity|left; reflexivity]].
    destruct (ListCheckRunsResults.Total a) as [n|] eqn:Htot;
      [|intros _; split; [reflexivity|]; right; exists a; auto].
    destruct (n =? 0) eqn:H0.
    { destruct (createCheckRun_returns p owner repo sha w) as [res [w1 Hc]].
      rewrite Hc. discriminate. }
    destruct (n =? 1) eqn:H1.
    { apply Z.eqb_eq in H1. subst n.
      destruct (ListCheckRunsResults.CheckRuns a) eqn:Hruns; [|discriminate].
      intros _. split; [reflexivity|]. right. exists a. auto. }
    destruct (n >? 1); discriminate.
  - intros [Herr [Hl | [a [Hl [Htot | [Htot Hruns]]]]]]; subst err l.
    + reflexivity.
    + rewrite Htot. reflexivity.
    + rewrite Htot, Hruns. reflexivity.
Qed.

Lemma selectCheckRun_panics_witness :
  fst (selectCheckRun passing "o" "r" "sha2"
         (Some (ListCheckRunsResults.mk (Some 1) [])) None emptyWorld)
  = Panicked.
Proof.
  apply (proj2 (selectCheckRun_panics passing "o" "r" "sha2"
                  (Some (ListCheckRunsResults.mk (Some 1) [])) None
                  emptyWorld)).
  split; [reflexivity|]. right.
  exists (ListCheckRunsResults.mk (Some 1) []).
  split; [reflexivity|]. right. split; reflexivity.
Defined.

(** The error of [processAndSubmit] is of one of two kinds. For a failed
    verification whose result was submitted it is a plain "failed:
    <message>": it does not wrap the verification error, so neither
    [Unwrap] nor [errors.As] reaches that error or its help. For a failed
    update call it wraps the cause, which [Unwrap] gives back, and the
    cause is the remote failure or the missing run. *)
Theorem processAndSubmit_error (p : PRPlugin.t) (env : ActionsEnv.t)
    (c c' : option CheckRun.t) (w w2 : World) (e : error) :
  processAndSubmit p env c w = (Returned (c', Some e), w2) ->
  (exists pe : error,
     snd (PRPlugin.ProcessPR p
            (PullRequestEvent.PullRequest (ActionsEnv.Event env))) = Some pe /\
     e = failed (Error pe) /\
     Error e = "failed: " ++ Error pe /\
     Unwrap e = None /\
     errors_As e = None)
  \/
  (exists cause : error,
     Error e = "unable to update check run with results: " ++ Error cause /\
     Unwrap e = Some cause /\
     c' = match hd None (faults w) with Some f => fault_run f | None => None end /\
     (cause = notFound \/
      exists f : Fault, hd None (faults w) = Some f /\ cause = fault_err f)).
Proof.
  rewrite processAndSubmit_run. cbv zeta.
  destruct (hd None (faults w)) as [f|].
  - intros Heq. injection Heq as Hc He Hw. subst.
    right. exists (fault_err f). repeat split. right. exists f. auto.
  - destruct (find _ (store w)) as [en|].
    + destruct (snd (PRPlugin.ProcessPR p _)) as [pe|]; [|discriminate].
      intros Heq. injection Heq as Hc He Hw. subst.
      left. exists pe. repeat split.
    + intros Heq. injection Heq as Hc He Hw. subst.
      right. exists notFound. repeat split. left. reflexivity.
Qed.

Lemma processAndSubmit_error_witness :
  errors_As (failed "bad title") = None /\
  errors_As (pluginError "bad title" (Some "use a prefix"))
  = Some (mkErrorWithHelp (pluginError "bad title" (Some "use a prefix"))
            "use a prefix").
Proof.
  destruct (processAndSubmit_error
              (constPlugin "ignored"
                 (Some (pluginError "bad title" (Some "use a prefix"))))
              (envOf "edit" "no prefix")
              (Some (runningRun 1 "sha2"))
              (Some (applyUpdate
                       (finishOptions
                          (constPlugin "ignored"
                             (Some (pluginError "bad title"
                                      (Some "use a prefix"))))
                          0 "failure" "bad title" "use a prefix")
                       (runningRun 1 "sha2")))
              (worldOf [runningRun 1 "sha2"] [])
              (updated "o" "r" 1
                 (finishOptions
                    (constPlugin "ignored"
                       (Some (pluginError "bad title" (Some "use a prefix"))))
                    0 "failure" "bad title" "use a prefix")
                 (invoked (prOf "no prefix" "sha2")
                    (worldOf [runningRun 1 "sha2"] [])))
              (failed "bad title") eq_refl)
    as [[pe [_ [_ [_ [_ H]]]]] | [cause [Hmsg _]]].
  - split; [exact H|reflexivity].
  - discriminate Hmsg.
Defined.

(** ** The title check as a verification function *)

(** With [verifyPRType] as its verification function, [processPR] concludes
    success exactly for the titles that the classifier does not send to the
    uncategorized sentinel; the text then names the kind's emoji, the kind
    and the cleaned title. For the other titles the error is non-nil. *)
Theorem verifyPRType_verdict `{Notes} (p : PRPlugin.t)
    (pr : option PullRequest.t) (w : World) :
  PRPlugin.ProcessPR p = verifyPRType ->
  let prType := fst (PRTypeFromTitle (GetTitle pr)) in
  let finalTitle := snd (PRTypeFromTitle (GetTitle pr)) in
  (prType <> UncategorizedPR ->
   fst (processPR p pr w)
   = Returned ("success", "Success",
               "Found " ++ Emoji prType ++ " PR (" ++ PRType_String prType
               ++ ") with final title:" ++ nl ++ nl ++ tab ++ finalTitle ++ nl,
               None)) /\
  (forall (conclusion summary text : string) (err : option error),
     fst (processPR p pr w) = Returned (conclusion, summary, text, err) ->
     (conclusion = "success" <-> prType <> UncategorizedPR) /\
     (err = None <-> prType <> UncategorizedPR)).
Proof.
  intros Hp prType finalTitle.
  rewrite processPR_run. cbn [fst]. unfold verdict. rewrite Hp.
  unfold verifyPRType. subst prType finalTitle.
  destruct (PRTypeFromTitle (GetTitle pr)) as [prType finalTitle].
  cbn [fst snd].
  destruct (PRType_eqb prType UncategorizedPR) eqn:Heq.
  - apply PRType_eqb_eq in Heq. split; [intros Hne; contradiction|].
    cbn [fst snd]. intros c s t err Hres.
    injection Hres as Hc Hs Ht Herr. subst.
    split; split; intros Habs; try discriminate; contradiction.
  - assert (Hne : prType <> UncategorizedPR).
    { intros Habs. apply PRType_eqb_eq in Habs. congruence. }
    cbn [fst snd]. split; [intros _; reflexivity|].
    intros c s t err Hres. injection Hres as Hc Hs Ht Herr. subst.
    split; split; intros _; auto.
Qed.

Lemma verifyPRType_verdict_witness :
  fst (processPR typePlugin (prOf ":bug: Fix the parser" "abc") emptyWorld)
  = Returned ("success", "Success",
              "Found 🐛 PR (bugfix) with final title:" ++ nl ++ nl ++ tab
              ++ "Fix the parser" ++ nl,
              None).
Proof.
  destruct (verifyPRType_verdict (H := SpecNotes.notes) typePlugin
              (prOf ":bug: Fix the parser" "abc") emptyWorld eq_refl)
    as [H1 _].
  apply H1. discriminate.
Defined.

(** ** When the verification runs *)

Lemma verifications_none (l : list Call) :
  existsb isVerification l = false -> verifications l = 0%nat.
Proof.
  unfold verifications.
  induction l as [|c l IH]; [reflexivity|].
  cbn [existsb filter]. intros Hq.
  apply orb_false_iff in Hq. destruct Hq as [Hc Hl].
  rewrite Hc. apply IH. exact Hl.
Qed.

Lemma quietly_verifications (w w' : World) (delta : list Call) :
  quietly w w' -> trace w' = (trace w ++ delta)%list ->
  verifications delta = 0%nat.
Proof.
  intros [_ [d [Hd Hq]]] Ht. rewrite Hd in Ht.
  apply app_inv_head in Ht. subst d.
  apply verifications_none. exact Hq.
Qed.

(** [onReopen] and [onSync] invoke the verification function exactly when
    the run they fetch is not completed: once for a run that is not
    completed, never for a completed one. *)
Theorem verification_only_for_unfinished_runs (p : PRPlugin.t)
    (env : ActionsEnv.t) (w w1 : World) (r : CheckRun.t) (delta : list Call) :
  (getCheckRun p (ActionsEnv.Owner env) (ActionsEnv.Repo env) (headSHAOf env) w
   = (Returned (Some r, None), w1) ->
   trace (snd (onReopen p env w)) = (trace w ++ delta)%list ->
   verifications delta = if completed r then 0%nat else 1%nat) /\
  (getCheckRun p (ActionsEnv.Owner env) (ActionsEnv.Repo env)
     (GetBefore (ActionsEnv.Event env)) w
   = (Returned (Some r, None), w1) ->
   trace (snd (onSync p env w)) = (trace w ++ delta)%list ->
   verifications delta = if completed r then 0%nat else 1%nat).
Proof.
  split.
  - intros Hget Ht.
    pose proof (getCheckRun_quietly p (ActionsEnv.Owner env)
                  (ActionsEnv.Repo env) (headSHAOf env) w) as Hq.
    rewrite Hget in Hq. cbn [snd] in Hq.
    unfold onReopen, bind in Ht. rewrite Hget in Ht.
    unfold completed. destruct (Equal Finished (GetStatus (Some r)));
      cbn [negb] in Ht.
    + rewrite failureOf_world in Ht.
      exact (quietly_verifications w w1 delta Hq Ht).
    + destruct (processAndSubmit_total p env (Some r) w1)
        as [[c' err] [w2 [Hps Htr]]].
      rewrite Hps in Ht. cbv beta iota delta [ret snd] in Ht.
      destruct Hq as [_ [d1 [Hd1 Hq1]]].
      rewrite Htr, Hd1, <- app_assoc in Ht. apply app_inv_head in Ht.
      subst delta. rewrite verifications_app.
      rewrite (quietly_verifications w w1 d1); [reflexivity| |exact Hd1].
      split; [|exists d1; auto].
      pose proof (getCheckRun_quietly p (ActionsEnv.Owner env)
                    (ActionsEnv.Repo env) (headSHAOf env) w) as Hq'.
      rewrite Hget in Hq'. exact (proj1 Hq').
  - intros Hget Ht.
    pose proof (getCheckRun_quietly p (ActionsEnv.Owner env)
                  (ActionsEnv.Repo env) (GetBefore (ActionsEnv.Event env)) w)
      as Hq.
    rewrite Hget in Hq. cbn [snd] in Hq.
    unfold onSync, bind at 1 in Ht. rewrite Hget in Ht. cbv zeta in Ht.
    unfold completed. destruct (Equal Finished (GetStatus (Some r)));
      cbn [negb] in Ht.
    + refine (quietly_verifications w _ delta _ Ht).
      eapply quietly_trans; [exact Hq|apply duplicate_tail_quietly].
    + unfold bind at 1 in Ht.
      destruct (processAndSubmit_total p env (Some r) w1)
        as [[c' err] [w2 [Hps Htr]]].
      rewrite Hps in Ht.
      assert (Hq3 : quietly w2
                      (snd (match err with
                            | Some _ => ret err w2
                            | None =>
                                ('(c'', err') <-
                                   duplicateCheckRun p (ActionsEnv.Owner env)
                                     (ActionsEnv.Repo env)
                                     (GetAfter (ActionsEnv.Event env)) c' ;;
                                 match err' with
                                 | Some _ => ret err'
                                 | None => failureOf c''
                                 end) w2
                            end))).
      { destruct err; [apply quietly_refl|apply duplicate_tail_quietly]. }
      assert (Ht' : trace (snd (match err with
                            | Some _ => ret err w2
                            | None =>
                                ('(c'', err') <-
                                   duplicateCheckRun p (ActionsEnv.Owner env)
                                     (ActionsEnv.Repo env)
                                     (GetAfter (ActionsEnv.Event env)) c' ;;
                                 match err' with
                                 | Some _ => ret err'
                                 | None => failureOf c''
                                 end) w2
                            end)) = (trace w ++ delta)%list).
      { destruct err; exact Ht. }
      clear Ht.
      destruct Hq3 as [_ [d3 [Hd3 Hq3]]].
      destruct Hq as [Hclock [d1 [Hd1 Hq1]]].
      rewrite Hd3, Htr, Hd1, <- !app_assoc in Ht'.
      apply app_inv_head in Ht'. subst delta.
      rewrite !verifications_app.
      assert (H1 : verifications d1 = 0%nat).
      { apply (quietly_verifications w w1 d1); [|exact Hd1].
        split; [exact Hclock|exists d1; auto]. }
      assert (H3 : verifications d3 = 0%nat).
      { apply (quietly_verifications w2
                 (set_trace (trace w2 ++ d3)%list w2) d3); [|reflexivity].
        split; [reflexivity|exists d3; auto]. }
      rewrite H1, H3. reflexivity.
Qed.

Lemma verification_only_for_unfinished_runs_witness :
  verifications
    [CallList "o" "r" "sha1" (Some "PR Type");
     CallCreate "o" "r"
       (duplicateOptions failing "sha2" (failedRun 1 "sha1"))]
  = 0%nat.
Proof.
  exact (proj2 (verification_only_for_unfinished_runs failing
                  (envOf "synchronize" "no prefix")
                  (worldOf [failedRun 1 "sha1"] [])
                  (called (CallList "o" "r" "sha1" (Some "PR Type"))
                     (worldOf [failedRun 1 "sha1"] []))
                  (failedRun 1 "sha1")
                  [CallList "o" "r" "sha1" (Some "PR Type");
                   CallCreate "o" "r"
                     (duplicateOptions failing "sha2" (failedRun 1 "sha1"))])
           eq_refl eq_refl).
Defined.

(** ** An edit, end to end *)





